(** * Scope: files, callables and the validation pipeline of a scope

    A shallow embedding of the [Scope] class of BrighterScript
    ([Scope.ts]) together with theorems about its file queries, its
    diagnostic passes and its validation state; and of the creators of
    tokens and expressions ([astUtils/creators.ts]).

    Conventions of the embedding.
    - A JavaScript object that is compared by reference ([===]) or mutated
      is split in two: an immutable handle ([Scope], [BscFileRef]) that
      carries an object id and the fields that are never reassigned, and,
      for scopes, a mutable [ScopeState] kept in a heap of scope states.
      Reference equality is equality of handles.
    - A method that reads or writes the mutable fields of its own scope is
      a computation in the state monad [L] over [ScopeState]; a method that
      also calls into the parent scope is a computation in the state monad
      [M] over the heap.  Loops are [forEach].
    - Logging is not modelled.
    - Strings are byte strings; [toLowerCase] and [trim] act on ASCII. *)

From Stdlib Require Import String Ascii ZArith Lia DecimalString.
From stdpp Require Import base option list gmap strings.

Local Open Scope Z_scope.
Local Open Scope nat_scope.

(** ** Strings *)

(** [String.prototype.toLowerCase], on the ASCII letters. *)
Definition lowerAscii (c : ascii) : ascii :=
  let n := nat_of_ascii c in
  if (65 <=? n) && (n <=? 90) then ascii_of_nat (n + 32) else c.

Fixpoint toLowerCase (s : string) : string :=
  match s with
  | EmptyString => EmptyString
  | String c rest => String (lowerAscii c) (toLowerCase rest)
  end.

(** [String.prototype.startsWith]. *)
Definition startsWith (s pre : string) : bool := String.prefix pre s.

(** [String.prototype.trim], with the ASCII white space characters. *)
Fixpoint trimStart (s : string) : string :=
  match s with
  | EmptyString => EmptyString
  | String c rest => if Ascii.is_space c then trimStart rest else s
  end.

Definition trim (s : string) : string :=
  String.rev (trimStart (String.rev (trimStart s))).

(** Decimal rendering of a number inside a template literal. *)
Definition numberToString (n : nat) : string :=
  NilEmpty.string_of_uint (Nat.to_uint n).

(** ** Source positions *)

Module Position.
Record t := mk { line : Z; character : Z }.
End Position.
Abbreviation Position := Position.t.

Module Range.
Record t := mk { start : Position; end_ : Position }.
End Range.
Abbreviation Range := Range.t.

(** [util.createRange(startLine, startCharacter, endLine, endCharacter)]. *)
Definition createRange (startLine startCharacter endLine endCharacter : Z) : Range :=
  Range.mk (Position.mk startLine startCharacter) (Position.mk endLine endCharacter).

Global Instance Position_eq_dec : EqDecision Position.
Proof. solve_decision. Defined.
Global Instance Range_eq_dec : EqDecision Range.
Proof. solve_decision. Defined.

(** ** Files, callables and call sites *)

(** The handle of a [BscFile] object: its identity and the two paths that
    are read through references to it. *)
Module BscFileRef.
Record t := mk { oid : nat; pkgPath : string; pathAbsolute : string }.
End BscFileRef.
Abbreviation BscFileRef := BscFileRef.t.

Global Instance BscFileRef_eq_dec : EqDecision BscFileRef.
Proof. solve_decision. Defined.

Inductive BscType :=
| DynamicType | StringType | IntegerType | ObjectType | FunctionType.

Module CallableParam.
Record t := mk { name : string; isOptional : bool }.
End CallableParam.
Abbreviation CallableParam := CallableParam.t.

Module Callable.
Record t := mk {
  file : BscFileRef;
  name : string;
  params : list CallableParam;
  nameRange : Range
}.
End Callable.
Abbreviation Callable := Callable.t.

(** A call site ([FunctionCall] of [interfaces]); only the number of
    arguments is observed, each argument is kept as its source text. *)
Module FunctionCall.
Record t := mk { name : string; nameRange : Range; args : list string }.
End FunctionCall.
Abbreviation FunctionCall := FunctionCall.t.

Module VariableDeclaration.
Record t := mk { name : string; type : BscType; nameRange : Range }.
End VariableDeclaration.
Abbreviation VariableDeclaration := VariableDeclaration.t.

Module FunctionScope.
Record t := mk { variableDeclarations : list VariableDeclaration }.
End FunctionScope.
Abbreviation FunctionScope := FunctionScope.t.

(** Modelled from the spec: [FunctionScope.getVariableByName], whose class is
    not part of the sources at hand; section 4.3.4 says that a local variable
    "with that name" satisfies the call, names being case-insensitive. *)
Definition getVariableByName (scope : FunctionScope) (name : string)
  : option VariableDeclaration :=
  List.find
    (fun v => bool_decide (toLowerCase (VariableDeclaration.name v) = toLowerCase name))
    (FunctionScope.variableDeclarations scope).

(** A script import ([FileReference] of [interfaces]). *)
Module FileReference.
Record t := mk {
  pkgPath : string;
  text : string;
  filePathRange : Range;
  sourceFile : BscFileRef
}.
End FileReference.
Abbreviation FileReference := FileReference.t.

Module NamespaceStatement.
Record t := mk { name : string }.
End NamespaceStatement.
Abbreviation NamespaceStatement := NamespaceStatement.t.

(** ** Diagnostics *)

(** What [mismatchArgumentCount] receives as its expected count: the number
    [maxParams], or the string [`${minParams}-${maxParams}`]. *)
Inductive ParamCountText :=
| CountNumber (n : nat)
| CountString (s : string).

(** The calls to the factories of [DiagnosticMessages] made by the scope,
    kept symbolically with their arguments. *)
Inductive DiagnosticInfo :=
| callToUnknownFunction (name scopeName : string)
| mismatchArgumentCount (expectedCount : ParamCountText) (actualCount : nat)
| duplicateFunctionImplementation (functionName scopeName : string)
| overridesAncestorFunction
    (callableName currentScopeName parentFilePath parentScopeName : string)
| scriptSrcCannotBeEmpty
| referencedFileDoesNotExist
| scriptImportCaseMismatch (correctFilePath : string)
| otherDiagnostic (code : nat) (message : string).

Module BsDiagnostic.
Record t := mk { info : DiagnosticInfo; range : Range; file : BscFileRef }.
End BsDiagnostic.
Abbreviation BsDiagnostic := BsDiagnostic.t.

Global Instance ParamCountText_eq_dec : EqDecision ParamCountText.
Proof. solve_decision. Defined.
Global Instance DiagnosticInfo_eq_dec : EqDecision DiagnosticInfo.
Proof. solve_decision. Defined.
Global Instance BsDiagnostic_eq_dec : EqDecision BsDiagnostic.
Proof. solve_decision. Defined.

(** ** Files *)

Inductive FileKind := BrsFileKind | XmlFileKind.

Module BscFile.
Record t := mk {
  ref : BscFileRef;
  kind : FileKind;
  extension : string;
  hasTypedef : bool;
  callables : list Callable;
  functionCalls : list FunctionCall;
  (* [getFunctionScopeAtPosition(position)]: the innermost function scope
     at a position, [None] for [undefined] *)
  getFunctionScopeAtPosition : Position -> option FunctionScope;
  (* [parser.references.namespaceStatements] *)
  namespaceStatements : list NamespaceStatement;
  ownScriptImports : list FileReference;
  scriptTagImports : list FileReference;
  (* the result of [getDiagnostics()] *)
  getDiagnostics : list BsDiagnostic
}.
Definition pkgPath (f : t) : string := BscFileRef.pkgPath (ref f).
Definition pathAbsolute (f : t) : string := BscFileRef.pathAbsolute (ref f).
End BscFile.
Abbreviation BscFile := BscFile.t.

Definition isBrsFile (f : BscFile) : bool :=
  match BscFile.kind f with BrsFileKind => true | XmlFileKind => false end.
Definition isXmlFile (f : BscFile) : bool :=
  match BscFile.kind f with XmlFileKind => true | BrsFileKind => false end.


(** ** Scopes, the cache and the program *)

(** The handle of a [Scope] object: its identity and its constructor
    arguments [name] and [dependencyGraphKey], which are never reassigned. *)
Module Scope.
Record t := mk { oid : nat; name : string; dependencyGraphKey : string }.
End Scope.
Abbreviation Scope := Scope.t.

Global Instance Scope_eq_dec : EqDecision Scope.
Proof. solve_decision. Defined.
Global Instance Scope_countable : Countable Scope.
Proof.
  refine (inj_countable'
            (fun s => (Scope.oid s, Scope.name s, Scope.dependencyGraphKey s))
            (fun t => Scope.mk t.1.1 t.1.2 t.2) _).
  by intros [].
Defined.

(** [CallableContainer] of [interfaces]: a callable and the scope that
    surfaced it. *)
Module CallableContainer.
Record t := mk { callable : Callable; scope : Scope }.
End CallableContainer.
Abbreviation CallableContainer := CallableContainer.t.

(** [CallableContainerMap = Map<string, CallableContainer[]>]: a JavaScript
    [Map] iterates in insertion order, so the entries are kept as a list. *)
Definition CallableContainerMap := list (string * list CallableContainer).

(** [Map.prototype.get]. *)
Fixpoint mapGet (m : CallableContainerMap) (key : string)
  : option (list CallableContainer) :=
  match m with
  | [] => None
  | (k, v) :: rest => if bool_decide (k = key) then Some v else mapGet rest key
  end.

(** What a slot of the scope's [Cache] holds.  The class map and the
    namespace lookup are only read by checks that are not modelled here;
    their slots are kept by the lower-case names they index. *)
Inductive CacheValue :=
| CachedFiles (files : list BscFile)
| CachedNames (names : list string).

(** The mutable fields of a [Scope] object. *)
Module ScopeState.
Record t := mk {
  isValidated : bool;
  cache : gmap string CacheValue;
  diagnostics : list BsDiagnostic
}.
(** The state the constructor leaves: [isValidated = false], an empty
    cache and no diagnostics. *)
Definition initial : t := mk false ∅ [].
End ScopeState.
Abbreviation ScopeState := ScopeState.t.

(** The part of [Program] the scope reads: the dependency graph (each key
    with its direct dependencies), the file provider and the global scope.
    The two methods of the file provider, [getFileByPkgPath(pkgPath)] and
    [getComponent(name)], belong to a class that is not part of the sources
    at hand: they are taken as the program has them, whatever they match
    names by; the result of [getComponent] stands for [comp.file]. *)
Module Program.
Record t := mk {
  dependencyGraph : gmap string (list string);
  getFileByPkgPath : string -> option BscFile;
  getComponent : string -> option BscFile;
  globalScope : Scope
}.
End Program.
Abbreviation Program := Program.t.

(** The heap of scope objects; a scope that was never written is in the
    state its constructor left. *)
Abbreviation Heap := (gmap Scope ScopeState).

Definition scopeState (h : Heap) (this : Scope) : ScopeState :=
  default ScopeState.initial (h !! this).

(** ** State monads *)

Definition State (S A : Type) : Type := S -> A * S.

Definition ret {S A} (a : A) : State S A := fun s => (a, s).
Definition bind {S A B} (m : State S A) (k : A -> State S B) : State S B :=
  fun s => let (a, s') := m s in k a s'.

Notation "x <- m ;; k" := (bind m (fun x => k))
  (at level 100, m at next level, right associativity).
Notation "m ;;; k" := (bind m (fun _ => k))
  (at level 100, right associativity).

Definition exec {S A} (m : State S A) (s : S) : S := snd (m s).
Definition eval {S A} (m : State S A) (s : S) : A := fst (m s).

(** Computations on the fields of one scope, and on the heap. *)
Abbreviation L := (State ScopeState).
Abbreviation M := (State Heap).

(** Reading the fields of a scope object. *)
Definition getState (this : Scope) : M ScopeState := fun h => (scopeState h this, h).

(** Calling a method of the scope object [this]. *)
Definition call {A} (this : Scope) (m : L A) : M A :=
  fun h => let (a, s') := m (scopeState h this) in (a, <[this := s']> h).

(** [for (let x of l) { body }]. *)
Fixpoint forEach {S A} (l : list A) (body : A -> State S unit) : State S unit :=
  match l with
  | [] => ret tt
  | x :: rest => body x ;;; forEach rest body
  end.

(** [if (c) { m }]. *)
Definition when {S} (c : bool) (m : State S unit) : State S unit :=
  if c then m else ret tt.

(** ** Collaborators of the scope that live in [Program] *)

Definition directDependencies (graph : gmap string (list string)) (key : string)
  : list string :=
  default [] (graph !! key).

(** One step per stack entry: an entry already seen is dropped, a new one is
    recorded and its own dependencies are put on top of the stack. *)
Fixpoint walkDependencies (fuel : nat) (graph : gmap string (list string))
    (stack seen : list string) : list string :=
  match fuel with
  | 0 => seen
  | S fuel' =>
      match stack with
      | [] => seen
      | d :: rest =>
          if bool_decide (d ∈ seen)
          then walkDependencies fuel' graph rest seen
          else walkDependencies fuel' graph (directDependencies graph d ++ rest)
                                (seen ++ [d])
      end
  end.

(** The number of edges of the graph; a walk pushes the dependencies of each
    key at most once, after those of its start. *)
Definition edgeCount (graph : gmap string (list string)) : nat :=
  sum_list_with (fun entry => length entry.2) (map_to_list graph).

(** Modelled from the spec: [DependencyGraph.getAllDependencies], whose class
    is not part of the sources at hand; section 4.1 gives it as the ordered
    list of the transitive dependencies of a key, without duplicates and in a
    stable order.  The order taken here is that of a depth-first walk from
    the direct dependencies; the fuel covers the whole walk
    ([getAllDependencies_transitive]). *)
Definition getAllDependencies (graph : gmap string (list string)) (key : string)
  : list string :=
  walkDependencies (S (2 * edgeCount graph)) graph (directDependencies graph key) [].

(** [dependency.replace(/$component:/, '')]: the pattern asks for the text
    [component:] after the end of the input, which no string has, so the
    string comes back unchanged. *)
Definition replaceComponentPattern (dependency : string) : string := dependency.

(** ** Methods of [Scope] on its own fields *)

Definition setIsValidated (b : bool) : L unit :=
  fun s => (tt, ScopeState.mk b (ScopeState.cache s) (ScopeState.diagnostics s)).

Definition getCache : L (gmap string CacheValue) := fun s => (ScopeState.cache s, s).

Definition setCache (c : gmap string CacheValue) : L unit :=
  fun s => (tt, ScopeState.mk (ScopeState.isValidated s) c (ScopeState.diagnostics s)).

Definition getOwnDiagnostics : L (list BsDiagnostic) :=
  fun s => (ScopeState.diagnostics s, s).

Definition setDiagnostics (ds : list BsDiagnostic) : L unit :=
  fun s => (tt, ScopeState.mk (ScopeState.isValidated s) (ScopeState.cache s) ds).

(** [this.diagnostics.push(d)]. *)
Definition pushDiagnostic (d : BsDiagnostic) : L unit :=
  ds <- getOwnDiagnostics ;;
  setDiagnostics (ds ++ [d]).

(** [addDiagnostics]: [this.diagnostics.push(...diagnostics)]. *)
Definition addDiagnostics (ds : list BsDiagnostic) : L unit :=
  forEach ds pushDiagnostic.

(** [getParentScope]: the global scope, except for the global scope itself. *)
Definition getParentScope (program : Program) (this : Scope) : option Scope :=
  if bool_decide (Program.globalScope program ≠ this)
  then Some (Program.globalScope program) else None.

(** The factory of [getAllFiles]. *)
Definition loadAllFiles (program : Program) (this : Scope) : list BscFile :=
  let dependencies :=
    getAllDependencies (Program.dependencyGraph program)
                       (Scope.dependencyGraphKey this) in
  fold_left
    (fun result dependency =>
       if startsWith dependency "component:" then
         match Program.getComponent program (replaceComponentPattern dependency) with
         | Some compFile => result ++ [compFile]
         | None => result
         end
       else
         match Program.getFileByPkgPath program dependency with
         | Some file => result ++ [file]
         | None => result
         end)
    dependencies [].

(** [getAllFiles]: [this.cache.getOrAdd('getAllFiles', factory)].  The cache
    (section 4.2) returns the stored value of the slot, or stores and returns
    what the factory computes. *)
Definition getAllFiles (program : Program) (this : Scope) : L (list BscFile) :=
  cache <- getCache ;;
  match cache !! "getAllFiles" with
  | Some (CachedFiles files) => ret files
  | _ =>
      let result := loadAllFiles program this in
      setCache (<["getAllFiles" := CachedFiles result]> cache) ;;;
      ret result
  end.

(** [getOwnFiles]: "source scope only inherits files from global, so just
    return all files". *)
Definition getOwnFiles (program : Program) (this : Scope) : L (list BscFile) :=
  getAllFiles program this.

(** [for (const file of files) { if (file.hasTypedef) continue; callback(file) }]
    where the callback may update the local variables [V] it captures; what
    the callback returns is not used. *)
Fixpoint enumerateFiles {V} (files : list BscFile) (callback : BscFile -> V -> L V)
    (locals : V) : L V :=
  match files with
  | [] => ret locals
  | file :: rest =>
      if BscFile.hasTypedef file then enumerateFiles rest callback locals
      else locals' <- callback file locals ;; enumerateFiles rest callback locals'
  end.

Definition enumerateAllFiles {V} (program : Program) (this : Scope)
    (callback : BscFile -> V -> L V) (locals : V) : L V :=
  files <- getAllFiles program this ;;
  enumerateFiles files callback locals.

Definition enumerateOwnFiles {V} (program : Program) (this : Scope)
    (callback : BscFile -> V -> L V) (locals : V) : L V :=
  files <- getOwnFiles program this ;;
  enumerateFiles files callback locals.

(** The loop of the callback of [isKnownNamespace]; [Some true] is its
    [return true], [None] is falling off the end of the callback. *)
Fixpoint isKnownNamespaceCallback (namespaces : list NamespaceStatement)
    (namespaceNameLower : string) : option bool :=
  match namespaces with
  | [] => None
  | namespace :: rest =>
      let loopNamespaceNameLower := toLowerCase (NamespaceStatement.name namespace) in
      if bool_decide (loopNamespaceNameLower = namespaceNameLower)
         || startsWith loopNamespaceNameLower (namespaceNameLower +:+ ".")
      then Some true
      else isKnownNamespaceCallback rest namespaceNameLower
  end.

(** [isKnownNamespace]: the [return true] belongs to the arrow function handed
    to [enumerateAllFiles], which drops what its callback returns; the method
    itself ends in [return false]. *)
Definition isKnownNamespace (program : Program) (this : Scope) (namespaceName : string)
  : L bool :=
  let namespaceNameLower := toLowerCase namespaceName in
  enumerateAllFiles program this
    (fun file (_ : unit) =>
       let returned :=
         isKnownNamespaceCallback (BscFile.namespaceStatements file) namespaceNameLower in
       ret tt)
    tt ;;;
  ret false.

(** [getOwnCallables]. *)
Definition getOwnCallables (program : Program) (this : Scope) : L (list CallableContainer) :=
  enumerateOwnFiles program this
    (fun file result =>
       ret (fold_left
              (fun result callable => result ++ [CallableContainer.mk callable this])
              (BscFile.callables file) result))
    [].

(** [getFileByRelativePath]. *)
Definition getFileByRelativePath (program : Program) (this : Scope) (relativePath : string)
  : L (option BscFile) :=
  files <- getAllFiles program this ;;
  ret (List.find
         (fun file =>
            bool_decide (toLowerCase (BscFile.pkgPath file) = toLowerCase relativePath))
         files).

(** [getOwnScriptImports]. *)
Definition getOwnScriptImports (program : Program) (this : Scope) : L (list FileReference) :=
  enumerateOwnFiles program this
    (fun file result =>
       if isBrsFile file then ret (result ++ BscFile.ownScriptImports file)
       else if isXmlFile file then ret (result ++ BscFile.scriptTagImports file)
       else ret result)
    [].

(** ** The diagnostic passes *)

(** The loop over [callable.params] of the arity check: [maxParams++] for
    every parameter, [minParams++] for those with [isOptional === false]. *)
Definition countParams (params : list CallableParam) : nat * nat :=
  fold_left
    (fun '(minParams, maxParams) param =>
       let maxParams := S maxParams in
       if bool_decide (CallableParam.isOptional param = false)
       then (S minParams, maxParams)
       else (minParams, maxParams))
    params (0, 0).

(** [diagnosticDetectFunctionCallsWithWrongParamCount]. *)
Definition diagnosticDetectFunctionCallsWithWrongParamCount
    (file : BscFile) (callableContainersByLowerName : CallableContainerMap) : L unit :=
  forEach (BscFile.functionCalls file) (fun expCall =>
    let callableContainersWithThisName :=
      mapGet callableContainersByLowerName (toLowerCase (FunctionCall.name expCall)) in
    let knownCallableContainer :=
      match callableContainersWithThisName with
      | Some containers => head containers
      | None => None
      end in
    match knownCallableContainer with
    | Some known =>
        let '(minParams, maxParams) :=
          countParams (Callable.params (CallableContainer.callable known)) in
        let expCallArgCount := length (FunctionCall.args expCall) in
        when ((maxParams <? length (FunctionCall.args expCall))
              || (length (FunctionCall.args expCall) <? minParams))
          (let minMaxParamsText :=
             if bool_decide (minParams = maxParams) then CountNumber maxParams
             else CountString
                    (numberToString minParams +:+ "-" +:+ numberToString maxParams) in
           pushDiagnostic
             (BsDiagnostic.mk (mismatchArgumentCount minMaxParamsText expCallArgCount)
                              (FunctionCall.nameRange expCall)
                              (BscFile.ref file)))
    | None => ret tt
    end).

(** [diagnosticDetectCallsToUnknownFunctions]. *)
Definition diagnosticDetectCallsToUnknownFunctions (this : Scope)
    (file : BscFile) (callablesByLowerName : CallableContainerMap) : L unit :=
  forEach (BscFile.functionCalls file) (fun expCall =>
    let lowerName := toLowerCase (FunctionCall.name expCall) in
    if bool_decide (BscFile.extension file = ".bs") && bool_decide (lowerName = "super")
    then ret tt
    else
      let scope :=
        BscFile.getFunctionScopeAtPosition file
          (Range.start (FunctionCall.nameRange expCall)) in
      let variable :=
        match scope with
        | Some functionScope => getVariableByName functionScope lowerName
        | None => None
        end in
      match variable with
      | None =>
          let callablesWithThisName := mapGet callablesByLowerName lowerName in
          let knownCallable :=
            match callablesWithThisName with
            | Some containers => head containers
            | None => None
            end in
          match knownCallable with
          | None =>
              pushDiagnostic
                (BsDiagnostic.mk
                   (callToUnknownFunction (FunctionCall.name expCall) (Scope.name this))
                   (FunctionCall.nameRange expCall)
                   (BscFile.ref file))
          | Some _ => ret tt
          end
      | Some _ => ret tt
      end).

(** The four lists filled by the first loop of
    [diagnosticFindDuplicateFunctionDeclarations]. *)
Module Partition.
Record t := mk {
  globalCallables : list CallableContainer;
  nonGlobalCallables : list CallableContainer;
  ownCallables : list CallableContainer;
  ancestorNonGlobalCallables : list CallableContainer
}.
End Partition.

Definition partitionContainers (this globalScope : Scope)
    (callableContainers : list CallableContainer) : Partition.t :=
  fold_left
    (fun acc container =>
       if bool_decide (CallableContainer.scope container = globalScope) then
         Partition.mk (Partition.globalCallables acc ++ [container])
                      (Partition.nonGlobalCallables acc)
                      (Partition.ownCallables acc)
                      (Partition.ancestorNonGlobalCallables acc)
       else if bool_decide (CallableContainer.scope container = this) then
         Partition.mk (Partition.globalCallables acc)
                      (Partition.nonGlobalCallables acc ++ [container])
                      (Partition.ownCallables acc ++ [container])
                      (Partition.ancestorNonGlobalCallables acc)
       else
         Partition.mk (Partition.globalCallables acc)
                      (Partition.nonGlobalCallables acc ++ [container])
                      (Partition.ownCallables acc)
                      (Partition.ancestorNonGlobalCallables acc ++ [container]))
    callableContainers (Partition.mk [] [] [] []).

(** The diagnostic pushed for an own callable that shadows an ancestor's. *)
Definition overridesAncestorDiagnostic (container shadowedCallable : CallableContainer)
  : BsDiagnostic :=
  BsDiagnostic.mk
    (overridesAncestorFunction
       (Callable.name (CallableContainer.callable container))
       (Scope.name (CallableContainer.scope container))
       (BscFileRef.pkgPath (Callable.file (CallableContainer.callable shadowedCallable)))
       (Scope.name (CallableContainer.scope shadowedCallable)))
    (Callable.nameRange (CallableContainer.callable container))
    (Callable.file (CallableContainer.callable container)).

(** The diagnostic pushed for an own callable that has a namesake in the
    same scope. *)
Definition duplicateFunctionDiagnostic (callableContainer : CallableContainer)
  : BsDiagnostic :=
  let callable := CallableContainer.callable callableContainer in
  BsDiagnostic.mk
    (duplicateFunctionImplementation
       (Callable.name callable)
       (Scope.name (CallableContainer.scope callableContainer)))
    (createRange
       (Position.line (Range.start (Callable.nameRange callable)))
       (Position.character (Range.start (Callable.nameRange callable)))
       (Position.line (Range.start (Callable.nameRange callable)))
       (Position.character (Range.end_ (Callable.nameRange callable))))
    (Callable.file callable).

(** [diagnosticFindDuplicateFunctionDeclarations]. *)
Definition diagnosticFindDuplicateFunctionDeclarations (program : Program) (this : Scope)
    (callableContainersByLowerName : CallableContainerMap) : L unit :=
  forEach callableContainersByLowerName (fun '(lowerName, callableContainers) =>
    let parts :=
      partitionContainers this (Program.globalScope program) callableContainers in
    let ownCallables := Partition.ownCallables parts in
    let ancestorNonGlobalCallables := Partition.ancestorNonGlobalCallables parts in
    when ((0 <? length ownCallables) && (0 <? length ancestorNonGlobalCallables))
      (forEach ownCallables (fun container =>
         if negb (bool_decide (lowerName = "init")) then
           (* [ancestorNonGlobalCallables[ancestorNonGlobalCallables.length - 1]],
              which exists under the guard of this loop *)
           match last ancestorNonGlobalCallables with
           | Some shadowedCallable =>
               if bool_decide
                    (Callable.file (CallableContainer.callable shadowedCallable)
                     = Callable.file (CallableContainer.callable container))
               then ret tt
               else pushDiagnostic (overridesAncestorDiagnostic container shadowedCallable)
           | None => ret tt
           end
         else ret tt)) ;;;
    when (1 <? length ownCallables)
      (forEach ownCallables (fun callableContainer =>
         pushDiagnostic (duplicateFunctionDiagnostic callableContainer)))).

(** [diagnosticValidateScriptImportPaths]. *)
Definition diagnosticValidateScriptImportPaths (program : Program) (this : Scope) : L unit :=
  scriptImports <- getOwnScriptImports program this ;;
  forEach scriptImports (fun scriptImport =>
    referencedFile <-
      getFileByRelativePath program this (FileReference.pkgPath scriptImport) ;;
    match referencedFile with
    | None =>
        let dInfo :=
          if String.length (trim (FileReference.text scriptImport)) =? 0
          then scriptSrcCannotBeEmpty
          else referencedFileDoesNotExist in
        pushDiagnostic
          (BsDiagnostic.mk dInfo
                           (FileReference.filePathRange scriptImport)
                           (FileReference.sourceFile scriptImport))
    | Some referenced =>
        if negb (bool_decide (FileReference.pkgPath scriptImport = BscFile.pkgPath referenced))
        then
          pushDiagnostic
            (BsDiagnostic.mk (scriptImportCaseMismatch (BscFile.pkgPath referenced))
                             (FileReference.filePathRange scriptImport)
                             (FileReference.sourceFile scriptImport))
        else ret tt
    end).

(** ** Validation *)

(** What the scope imports from modules that are not part of the sources at
    hand, and the checks of [validate] that no statement below is about.
    Each check is given by the diagnostics it pushes onto the scope. *)
Module Collaborators.
Record t := mk {
  (* [String.prototype.localeCompare] *)
  localeCompare : string -> string -> Z;
  (* [util.getCallableContainersByLowerName] *)
  getCallableContainersByLowerName : list CallableContainer -> CallableContainerMap;
  (* [util.diagnosticIsSuppressed] *)
  diagnosticIsSuppressed : BsDiagnostic -> bool;
  (* [program.plugins.emit(event, this, files, callableContainerMap)]:
     the diagnostics the handlers add to the scope *)
  pluginsEmit : string -> Scope -> list BscFile -> CallableContainerMap
                -> list BsDiagnostic;
  (* [new BsClassValidator().validate(this)]: its [diagnostics], from the
     files of the scope *)
  classValidatorDiagnostics : Scope -> list BscFile -> list BsDiagnostic;
  (* [diagnosticDetectShadowedLocalVars(file, callableContainerMap)],
     [diagnosticDetectFunctionCollisions(file)] and
     [detectVariableNamespaceCollisions(file)], from the files of the scope *)
  diagnosticDetectShadowedLocalVars :
    Scope -> list BscFile -> BscFile -> CallableContainerMap -> list BsDiagnostic;
  diagnosticDetectFunctionCollisions :
    Scope -> list BscFile -> BscFile -> list BsDiagnostic;
  detectVariableNamespaceCollisions :
    Scope -> list BscFile -> BscFile -> list BsDiagnostic
}.
End Collaborators.
Abbreviation Collaborators := Collaborators.t.

(** The comparator handed to [callables.sort]: by path, then by name; [||]
    yields its left operand unless that is [0]. *)
Definition compareCallables (env : Collaborators) (a b : CallableContainer) : Z :=
  let byPath :=
    Collaborators.localeCompare env
      (BscFileRef.pathAbsolute (Callable.file (CallableContainer.callable a)))
      (BscFileRef.pathAbsolute (Callable.file (CallableContainer.callable b))) in
  if bool_decide (byPath ≠ 0%Z) then byPath
  else Collaborators.localeCompare env
         (Callable.name (CallableContainer.callable a))
         (Callable.name (CallableContainer.callable b)).

(** [Array.prototype.sort] with a comparator: a stable sort, here by
    insertion. *)
Fixpoint sortInsert {A} (cmp : A -> A -> Z) (x : A) (sorted : list A) : list A :=
  match sorted with
  | [] => [x]
  | y :: rest =>
      if (cmp x y <=? 0)%Z then x :: y :: rest else y :: sortInsert cmp x rest
  end.

Definition sort {A} (cmp : A -> A -> Z) (l : list A) : list A :=
  foldr (sortInsert cmp) [] l.

(** [getAllCallables]: own callables, then those of the parent chain; the
    fuel bounds the length of the chain that is followed. *)
Fixpoint getAllCallablesRec (fuel : nat) (program : Program) (this : Scope)
  : M (list CallableContainer) :=
  match fuel with
  | 0 => ret []
  | S fuel' =>
      match getParentScope program this with
      | Some parentScope =>
          own <- call this (getOwnCallables program this) ;;
          inherited <- getAllCallablesRec fuel' program parentScope ;;
          ret (own ++ inherited)
      | None =>
          own <- call this (getOwnCallables program this) ;;
          ret own
      end
  end.

(** A generic scope has the global scope as parent, which has none. *)
Definition getAllCallables (program : Program) (this : Scope)
  : M (list CallableContainer) :=
  getAllCallablesRec 2 program this.

(** [validateClasses]. *)
Definition validateClasses (env : Collaborators) (program : Program) (this : Scope)
  : L unit :=
  files <- getAllFiles program this ;;
  addDiagnostics (Collaborators.classValidatorDiagnostics env this files).

(** The checks of [validate] on one file, the body of the callback handed to
    [enumerateOwnFiles]. *)
Definition validateFile (env : Collaborators) (program : Program) (this : Scope)
    (callableContainerMap : CallableContainerMap) (file : BscFile) : L unit :=
  allFiles <- getAllFiles program this ;;
  diagnosticDetectCallsToUnknownFunctions this file callableContainerMap ;;;
  diagnosticDetectFunctionCallsWithWrongParamCount file callableContainerMap ;;;
  addDiagnostics
    (Collaborators.diagnosticDetectShadowedLocalVars env this allFiles file
                                                     callableContainerMap) ;;;
  addDiagnostics (Collaborators.diagnosticDetectFunctionCollisions env this allFiles file) ;;;
  addDiagnostics (Collaborators.detectVariableNamespaceCollisions env this allFiles file).

(** [validate(force)]; the fuel bounds the length of the chain of parents
    that are validated first. *)
Fixpoint validateRec (fuel : nat) (env : Collaborators) (program : Program)
    (this : Scope) (force : bool) : M unit :=
  match fuel with
  | 0 => ret tt
  | S fuel' =>
      s <- getState this ;;
      if ScopeState.isValidated s && negb force then ret tt
      else
        match getParentScope program this with
        | Some parentScope =>
            parentState <- getState parentScope ;;
            when (negb (ScopeState.isValidated parentState))
                 (validateRec fuel' env program parentScope force)
        | None => ret tt
        end ;;;
        call this (setDiagnostics []) ;;;
        callables <- getAllCallables program this ;;
        let callables := sort (compareCallables env) callables in
        let callableContainerMap :=
          Collaborators.getCallableContainersByLowerName env callables in
        call this
          (files <- getOwnFiles program this ;;
           addDiagnostics
             (Collaborators.pluginsEmit env "beforeScopeValidate" this files
                                        callableContainerMap) ;;;
           diagnosticFindDuplicateFunctionDeclarations program this callableContainerMap ;;;
           diagnosticValidateScriptImportPaths program this ;;;
           validateClasses env program this ;;;
           enumerateOwnFiles program this
             (fun file (_ : unit) =>
                validateFile env program this callableContainerMap file)
             tt ;;;
           addDiagnostics
             (Collaborators.pluginsEmit env "afterScopeValidate" this files
                                        callableContainerMap) ;;;
           setIsValidated true)
  end.

(** A generic scope has the global scope as parent, which has none. *)
Definition validate (env : Collaborators) (program : Program) (this : Scope)
    (force : bool) : M unit :=
  validateRec 2 env program this force.

(** [invalidate]: [isValidated = false] and [this.cache.clear()]. *)
Definition invalidate : L unit :=
  setIsValidated false ;;;
  setCache ∅.

(** [getDiagnostics]. *)
Definition getDiagnostics (env : Collaborators) (program : Program) (this : Scope)
  : L (list BsDiagnostic) :=
  ownDiagnostics <- getOwnDiagnostics ;;
  let diagnosticLists := [ownDiagnostics] in
  diagnosticLists <-
    enumerateOwnFiles program this
      (fun file diagnosticLists => ret (diagnosticLists ++ [BscFile.getDiagnostics file]))
      diagnosticLists ;;
  let allDiagnostics := concat diagnosticLists in
  let filteredDiagnostics :=
    List.filter (fun x => negb (Collaborators.diagnosticIsSuppressed env x)) allDiagnostics in
  ret filteredDiagnostics.

(** * Expected results and example programs *)

(** ** Effects on the state of a scope *)

(** The scope state after the diagnostics [ds] were pushed. *)
Definition pushAll (ds : list BsDiagnostic) (s : ScopeState) : ScopeState :=
  ScopeState.mk (ScopeState.isValidated s) (ScopeState.cache s)
                (ScopeState.diagnostics s ++ ds).

(** The diagnostics a computation added to those of the scope. *)
Definition emitted {A} (m : L A) (s : ScopeState) : list BsDiagnostic :=
  drop (length (ScopeState.diagnostics s)) (ScopeState.diagnostics (exec m s)).

(** The slot of [getAllFiles] holds the list [files]. *)
Definition cached (files : list BscFile) (s : ScopeState) : Prop :=
  ScopeState.cache s !! "getAllFiles" = Some (CachedFiles files).

(** The computation leaves the scope validated. *)
Definition endsValidated (m : L unit) : Prop :=
  forall s, ScopeState.isValidated (exec m s) = true.

(** The computation on the heap does not look at the scope [this]: it runs
    the same whatever the state of [this], and leaves that state alone. *)
Definition frames {A} (this : Scope) (m : M A) : Prop :=
  forall x h, m (<[this := x]> h) = (eval m h, <[this := x]> (exec m h)).

(** ** What the arity check is to report *)

(** What the arity check is to report for one call: with the first callable
    registered under the lower-case name of the call, [minParams] the number
    of its parameters that are not optional and [maxParams] the number of its
    parameters, a mismatch when the number of arguments is below [minParams]
    or above [maxParams], displayed as [maxParams] when both bounds agree and
    as ["min-max"] otherwise; nothing when no callable has that name. *)
Definition expectedArityDiagnostics (file : BscFile) (map : CallableContainerMap)
    (expCall : FunctionCall) : list BsDiagnostic :=
  match mapGet map (toLowerCase (FunctionCall.name expCall)) with
  | Some (known :: _) =>
      let params := Callable.params (CallableContainer.callable known) in
      let minParams :=
        length (List.filter (fun x => negb (CallableParam.isOptional x)) params) in
      let maxParams := length params in
      let argCount := length (FunctionCall.args expCall) in
      if bool_decide (argCount < minParams \/ maxParams < argCount) then
        [BsDiagnostic.mk
           (mismatchArgumentCount
              (if bool_decide (minParams = maxParams) then CountNumber maxParams
               else CountString
                      (numberToString minParams +:+ "-" +:+ numberToString maxParams))
              argCount)
           (FunctionCall.nameRange expCall)
           (BscFile.ref file)]
      else []
  | _ => []
  end.

(** ** What the unknown-call check is to report *)

(** The call is the literal name [super] in a [.bs] file. *)
Definition isSuperInBsFile (file : BscFile) (expCall : FunctionCall) : bool :=
  bool_decide (BscFile.extension file = ".bs"
               /\ toLowerCase (FunctionCall.name expCall) = "super").

(** The innermost function scope at the call site has a local variable with
    the lower-case name of the call; the type of the variable plays no part. *)
Definition hasLocalVariable (file : BscFile) (expCall : FunctionCall) : bool :=
  match BscFile.getFunctionScopeAtPosition file
          (Range.start (FunctionCall.nameRange expCall)) with
  | Some functionScope =>
      existsb
        (fun v => bool_decide (toLowerCase (VariableDeclaration.name v)
                               = toLowerCase (FunctionCall.name expCall)))
        (FunctionScope.variableDeclarations functionScope)
  | None => false
  end.

(** A callable with the lower-case name of the call exists in the map. *)
Definition hasCallable (map : CallableContainerMap) (expCall : FunctionCall) : bool :=
  match mapGet map (toLowerCase (FunctionCall.name expCall)) with
  | Some (_ :: _) => true
  | _ => false
  end.

(** What the unknown-call check is to report for one call. *)
Definition expectedUnknownCallDiagnostics (this : Scope) (file : BscFile)
    (map : CallableContainerMap) (expCall : FunctionCall) : list BsDiagnostic :=
  if negb (isSuperInBsFile file expCall)
     && negb (hasLocalVariable file expCall)
     && negb (hasCallable map expCall)
  then [BsDiagnostic.mk
          (callToUnknownFunction (FunctionCall.name expCall) (Scope.name this))
          (FunctionCall.nameRange expCall)
          (BscFile.ref file)]
  else [].

(** What the checks of [validate] on one file are to report, in their order:
    unknown calls, arity, and the three checks given by the collaborators. *)
Definition expectedFileDiagnostics (env : Collaborators) (this : Scope)
    (allFiles : list BscFile) (map : CallableContainerMap) (file : BscFile)
  : list BsDiagnostic :=
  flat_map (expectedUnknownCallDiagnostics this file map) (BscFile.functionCalls file)
  ++ flat_map (expectedArityDiagnostics file map) (BscFile.functionCalls file)
  ++ Collaborators.diagnosticDetectShadowedLocalVars env this allFiles file map
  ++ Collaborators.diagnosticDetectFunctionCollisions env this allFiles file
  ++ Collaborators.detectVariableNamespaceCollisions env this allFiles file.

(** ** What duplicate and override detection is to report *)

(** The containers of one name that the scope surfaced itself, and those of
    its other ancestors; containers of the global scope belong to neither
    (section 4.3.2). *)
Definition ownCallablesOf (program : Program) (this : Scope)
    (containers : list CallableContainer) : list CallableContainer :=
  List.filter
    (fun c => negb (bool_decide (CallableContainer.scope c = Program.globalScope program))
              && bool_decide (CallableContainer.scope c = this))
    containers.

Definition ancestorCallablesOf (program : Program) (this : Scope)
    (containers : list CallableContainer) : list CallableContainer :=
  List.filter
    (fun c => negb (bool_decide (CallableContainer.scope c = Program.globalScope program))
              && negb (bool_decide (CallableContainer.scope c = this)))
    containers.

(** What override detection is to report for one name: when the scope has
    an own callable and an ancestor container exists, and the name is not
    [init], one diagnostic per own callable that refers to the last ancestor
    container, except for the own callables of the same file as that one. *)
Definition expectedOverrideDiagnostics (program : Program) (this : Scope)
    (entry : string * list CallableContainer) : list BsDiagnostic :=
  let own := ownCallablesOf program this entry.2 in
  match last (ancestorCallablesOf program this entry.2) with
  | Some shadowed =>
      if bool_decide (entry.1 = "init") then []
      else
        List.map (fun c => overridesAncestorDiagnostic c shadowed)
          (List.filter
             (fun c => negb (bool_decide
                               (Callable.file (CallableContainer.callable shadowed)
                                = Callable.file (CallableContainer.callable c))))
             own)
  | None => []
  end.

(** What duplicate detection is to report for one name: one diagnostic per
    own callable when there are two or more of them. *)
Definition expectedDuplicateDiagnostics (program : Program) (this : Scope)
    (entry : string * list CallableContainer) : list BsDiagnostic :=
  let own := ownCallablesOf program this entry.2 in
  if 2 <=? length own then List.map duplicateFunctionDiagnostic own else [].

(** Duplicate detection as the specification words it, with every container
    of the scope counted as its own: one diagnostic per container whose
    scope is the scope at hand, when there are two or more of them. *)
Definition statedDuplicateDiagnostics (this : Scope)
    (entry : string * list CallableContainer) : list BsDiagnostic :=
  let own :=
    List.filter (fun c => bool_decide (CallableContainer.scope c = this)) entry.2 in
  if 2 <=? length own then List.map duplicateFunctionDiagnostic own else [].

Definition isOverridesAncestor (d : BsDiagnostic) : bool :=
  match BsDiagnostic.info d with overridesAncestorFunction _ _ _ _ => true | _ => false end.

Definition isDuplicateFunction (d : BsDiagnostic) : bool :=
  match BsDiagnostic.info d with duplicateFunctionImplementation _ _ => true | _ => false end.

(** ** What the import check is to report *)

(** The script imports of the files without a typedef: those of the script
    itself for a script file, those of the script tags for a component. *)
Definition scriptImportsOf (files : list BscFile) : list FileReference :=
  flat_map
    (fun file =>
       if BscFile.hasTypedef file then []
       else match BscFile.kind file with
            | BrsFileKind => BscFile.ownScriptImports file
            | XmlFileKind => BscFile.scriptTagImports file
            end)
    files.

(** The first of the files whose pkgPath is that of the import up to the
    case of letters. *)
Definition resolveImport (files : list BscFile) (scriptImport : FileReference)
  : option BscFile :=
  List.find
    (fun file => bool_decide (toLowerCase (BscFile.pkgPath file)
                              = toLowerCase (FileReference.pkgPath scriptImport)))
    files.

(** What the import check is to report for one import. *)
Definition expectedImportDiagnostics (files : list BscFile) (scriptImport : FileReference)
  : list BsDiagnostic :=
  match resolveImport files scriptImport with
  | None =>
      [BsDiagnostic.mk
         (if bool_decide (trim (FileReference.text scriptImport) = EmptyString)
          then scriptSrcCannotBeEmpty else referencedFileDoesNotExist)
         (FileReference.filePathRange scriptImport)
         (FileReference.sourceFile scriptImport)]
  | Some referenced =>
      if bool_decide (FileReference.pkgPath scriptImport = BscFile.pkgPath referenced)
      then []
      else [BsDiagnostic.mk
              (scriptImportCaseMismatch (BscFile.pkgPath referenced))
              (FileReference.filePathRange scriptImport)
              (FileReference.sourceFile scriptImport)]
  end.

(** ** The files of a scope *)

(** An edge of the dependency graph. *)
Definition dependsOn (graph : gmap string (list string)) (key dependency : string) : Prop :=
  dependency ∈ directDependencies graph key.

(** The edges that a walk may still follow: those of the keys not seen yet. *)
Definition pendingEdges (entries : list (string * list string)) (seen : list string) : nat :=
  sum_list_with
    (fun entry => if bool_decide (entry.1 ∈ seen) then 0 else length entry.2)
    entries.

(** What a dependency stands for: for an entry that starts with
    [component:], what [getComponent] returns for the whole entry, prefix
    included (the pattern [/$component:/] strips nothing); for any other
    entry, what [getFileByPkgPath] returns for it. *)
Definition resolveDependency (program : Program) (dependency : string) : option BscFile :=
  if startsWith dependency "component:" then Program.getComponent program dependency
  else Program.getFileByPkgPath program dependency.

(** The file is what some direct dependency of the key of the scope stands
    for. *)
Definition isDirectDependency (program : Program) (this : Scope) (file : BscFile) : Prop :=
  exists dependency,
    dependency ∈ directDependencies (Program.dependencyGraph program)
                                    (Scope.dependencyGraphKey this)
    /\ resolveDependency program dependency = Some file.

(** The diagnostics of the files of the scope, as [getDiagnostics] collects
    them. *)
Definition fileDiagnosticsOf (files : list BscFile) : list BsDiagnostic :=
  flat_map (fun file => if BscFile.hasTypedef file then [] else BscFile.getDiagnostics file)
           files.

(** ** Example programs *)

(** A range for the examples. *)
Definition zeroRange : Range := createRange 0 0 0 0.

(** A file provider over the loaded files, for the examples: like the
    lookups of the scope itself ([getFileByRelativePath]), it finds a file by
    its pkgPath up to the case of the letters. *)
Definition loadedFile (files : list BscFile) (pkgPath : string) : option BscFile :=
  List.find
    (fun file => bool_decide (toLowerCase (BscFile.pkgPath file) = toLowerCase pkgPath))
    files.

Definition globalScopeHandle : Scope := Scope.mk 0 "global" "scope:global".
Definition sourceScopeHandle : Scope := Scope.mk 1 "source" "scope:source".

(** A source scope with one script that declares the namespace [A.B.C]. *)
Definition namespaceFile : BscFile :=
  BscFile.mk (BscFileRef.mk 1 "pkg:/source/main.bs" "/project/source/main.bs")
             BrsFileKind ".bs" false [] [] (fun _ => None)
             [NamespaceStatement.mk "A.B.C"] [] [] [].

Definition namespaceProgram : Program :=
  Program.mk {[ "scope:source" := ["pkg:/source/main.bs"] ]}
             (loadedFile [namespaceFile]) (fun _ => None) globalScopeHandle.

(** A source scope whose script [main.brs] imports [lib.brs]: the key of the
    scope depends on [main.brs], which depends on [lib.brs]. *)
Definition mainFile : BscFile :=
  BscFile.mk (BscFileRef.mk 1 "pkg:/source/main.brs" "/project/source/main.brs")
             BrsFileKind ".brs" false [] [] (fun _ => None) []
             [FileReference.mk "pkg:/source/lib.brs" "pkg:/source/lib.brs" zeroRange
                (BscFileRef.mk 1 "pkg:/source/main.brs" "/project/source/main.brs")]
             [] [].

Definition libFile : BscFile :=
  BscFile.mk (BscFileRef.mk 2 "pkg:/source/lib.brs" "/project/source/lib.brs")
             BrsFileKind ".brs" false [] [] (fun _ => None) [] [] [] [].

Definition importProgram : Program :=
  Program.mk {[ "scope:source" := ["pkg:/source/main.brs"];
                "pkg:/source/main.brs" := ["pkg:/source/lib.brs"] ]}
             (loadedFile [mainFile; libFile]) (fun _ => None) globalScopeHandle.


Definition greetFileRef : BscFileRef :=
  BscFileRef.mk 1 "pkg:/source/greet.brs" "/project/source/greet.brs".

(** [sub greet(name, prefix)], where [prefix] has a default value. *)
Definition greetCallable : Callable :=
  Callable.mk greetFileRef "greet"
              [CallableParam.mk "name" false; CallableParam.mk "prefix" true] zeroRange.

(** A script that calls [greet("a", "b", "c")]. *)
Definition greetFile : BscFile :=
  BscFile.mk greetFileRef BrsFileKind ".brs" false [greetCallable]
             [FunctionCall.mk "greet" zeroRange ["a"; "b"; "c"]]
             (fun _ => None) [] [] [] [].

(** [sub init()] of a component and of the component it extends. *)
Definition parentInit : Callable :=
  Callable.mk (BscFileRef.mk 1 "pkg:/components/Parent.brs" "/project/components/Parent.brs")
              "init" [] zeroRange.

Definition childInit : Callable :=
  Callable.mk (BscFileRef.mk 2 "pkg:/components/Child.brs" "/project/components/Child.brs")
              "init" [] zeroRange.

Definition parentScopeHandle : Scope := Scope.mk 2 "Parent" "component:parent".
Definition childScopeHandle : Scope := Scope.mk 3 "Child" "component:child".

Definition emptyProgram : Program :=
  Program.mk ∅ (fun _ => None) (fun _ => None) globalScopeHandle.

(** Two declarations of [sub run()] in the files of one scope. *)
Definition runIn (oid : nat) (path : string) : Callable :=
  Callable.mk (BscFileRef.mk oid path path) "run" [] zeroRange.

(** * Further parts of the code *)

(** ** Further methods of [Scope] *)

Inductive ParseMode := BrightScript | BrighterScript.

(** [getCallableByName]; [getName] stands for the method [getName] of a
    callable, whose declaration is not part of the sources at hand. *)
Definition getCallableByName (getName : Callable -> ParseMode -> string)
    (program : Program) (this : Scope) (name : string) : M (option Callable) :=
  let lowerName := toLowerCase name in
  callables <- getAllCallables program this ;;
  ret (CallableContainer.callable
         <$> List.find
               (fun callable =>
                  bool_decide
                    (toLowerCase (getName (CallableContainer.callable callable) BrighterScript)
                     = lowerName))
               callables).

(** [getAllNamespaceStatements]. *)
Definition getAllNamespaceStatements (program : Program) (this : Scope)
  : L (list NamespaceStatement) :=
  enumerateAllFiles program this
    (fun file result => ret (result ++ BscFile.namespaceStatements file))
    [].

(** [onDependenciesChanged]. *)
Definition onDependenciesChanged (key : string) : L unit := invalidate.

(** [getFile]; [standardizePath] stands for the template tag [s] of [util],
    which is not part of the sources at hand. *)
Definition getFile (standardizePath : string -> string) (program : Program)
    (this : Scope) (pathAbsolute : string) : L (option BscFile) :=
  let pathAbsolute := standardizePath pathAbsolute in
  files <- getAllFiles program this ;;
  ret (List.find (fun file => bool_decide (BscFile.pathAbsolute file = pathAbsolute)) files).

(** [hasFile]: [files.includes(file)] compares the file objects by
    reference. *)
Definition hasFile (program : Program) (this : Scope) (file : BscFile) : L bool :=
  files <- getOwnFiles program this ;;
  ret (existsb (fun f => bool_decide (BscFile.ref f = BscFile.ref file)) files).

(** ** What the further methods are to return *)

(** The files without a typedef. *)
Definition withoutTypedef (files : list BscFile) : list BscFile :=
  List.filter (fun file => negb (BscFile.hasTypedef file)) files.

(** The callables of the files without a typedef, each with the scope that
    surfaces it. *)
Definition ownContainersOf (this : Scope) (files : list BscFile) : list CallableContainer :=
  flat_map
    (fun file => List.map (fun callable => CallableContainer.mk callable this)
                          (BscFile.callables file))
    (withoutTypedef files).

(** What [getAllFiles] returns for a scope in a heap. *)
Definition filesOf (program : Program) (h : Heap) (this : Scope) : list BscFile :=
  eval (getAllFiles program this) (scopeState h this).

(** The heap after [getAllFiles] was called on a scope. *)
Definition fillFiles (program : Program) (this : Scope) (h : Heap) : Heap :=
  <[this := exec (getAllFiles program this) (scopeState h this)]> h.

(** The containers of the scope followed by those of its parent, if any. *)
Definition allContainersOf (program : Program) (h : Heap) (this : Scope)
  : list CallableContainer :=
  ownContainersOf this (filesOf program h this)
  ++ match getParentScope program this with
     | Some parentScope => ownContainersOf parentScope (filesOf program h parentScope)
     | None => []
     end.

(** The map of [validate]: the containers sorted, then grouped by name. *)
Definition mapOf (env : Collaborators) (containers : list CallableContainer)
  : CallableContainerMap :=
  Collaborators.getCallableContainersByLowerName env (sort (compareCallables env) containers).

(** What [validate] is to leave as the diagnostics of the scope, stage by
    stage: the handlers of [beforeScopeValidate], duplicate and override
    detection, the import check, the class validator, the checks on the own
    files without a typedef, the handlers of [afterScopeValidate]. *)
Definition expectedValidateDiagnostics (env : Collaborators) (program : Program)
    (this : Scope) (files : list BscFile) (map : CallableContainerMap)
  : list BsDiagnostic :=
  Collaborators.pluginsEmit env "beforeScopeValidate" this files map
  ++ flat_map (fun entry => expectedOverrideDiagnostics program this entry
                            ++ expectedDuplicateDiagnostics program this entry) map
  ++ flat_map (expectedImportDiagnostics files) (scriptImportsOf files)
  ++ Collaborators.classValidatorDiagnostics env this files
  ++ flat_map (fun file => if BscFile.hasTypedef file then []
                           else expectedFileDiagnostics env this files map file) files
  ++ Collaborators.pluginsEmit env "afterScopeValidate" this files map.

(** The state [validate] is to leave a scope in: validated, with its files
    in the cache and the diagnostics of the stages. *)
Definition validatedState (env : Collaborators) (program : Program) (h : Heap)
    (this : Scope) : ScopeState :=
  ScopeState.mk true
    (ScopeState.cache (exec (getAllFiles program this) (scopeState h this)))
    (expectedValidateDiagnostics env program this (filesOf program h this)
       (mapOf env (allContainersOf program h this))).

(** The heap after the parent of a scope was validated, if it had to be. *)
Definition parentValidated (env : Collaborators) (program : Program) (h : Heap)
    (this : Scope) : Heap :=
  match getParentScope program this with
  | Some parentScope =>
      if ScopeState.isValidated (scopeState h parentScope) then h
      else <[parentScope := validatedState env program h parentScope]> h
  | None => h
  end.

(** Collaborators for the examples: strings compared letter by letter,
    containers grouped by lower-cased name in the order met, nothing
    suppressed, no plugin and no diagnostics of the remaining checks. *)
Fixpoint groupInsert (key : string) (container : CallableContainer)
    (map : CallableContainerMap) : CallableContainerMap :=
  match map with
  | [] => [(key, [container])]
  | (k, containers) :: rest =>
      if String.eqb k key then (k, containers ++ [container]) :: rest
      else (k, containers) :: groupInsert key container rest
  end.

Definition plainCollaborators : Collaborators :=
  Collaborators.mk
    (fun a b => match String.compare a b with Lt => (-1)%Z | Eq => 0%Z | Gt => 1%Z end)
    (fun containers =>
       fold_left
         (fun map container =>
            groupInsert (toLowerCase (Callable.name (CallableContainer.callable container)))
                        container map)
         containers [])
    (fun _ => false)
    (fun _ _ _ _ => [])
    (fun _ _ => [])
    (fun _ _ _ _ => [])
    (fun _ _ _ => [])
    (fun _ _ _ => []).

(** The callable a container holds under the given name, whatever the case
    of the letters. *)
Definition isNamed (getName : Callable -> ParseMode -> string) (name : string)
    (container : CallableContainer) : bool :=
  bool_decide (toLowerCase (getName (CallableContainer.callable container) BrighterScript)
               = toLowerCase name).

(** ** The creators of [astUtils/creators] *)

(** The kinds of token the creators name. *)
Module TokenKind.
Inductive t :=
| Identifier | Dot | StringLiteral | IntegerLiteral | FloatLiteral | Invalid
| True | False | LeftParen | RightParen.
End TokenKind.
Abbreviation TokenKind := TokenKind.t.

Module Token.
Record t := mk {
  kind : TokenKind;
  text : string;
  isReserved : bool;
  range : Range;
  leadingWhitespace : string
}.
End Token.
Abbreviation Token := Token.t.

(** [interpolatedRange]: "a range that points to nowhere". *)
Definition interpolatedRange : Range :=
  Range.mk (Position.mk (-1) (-1)) (Position.mk (-1) (-1)).

(** An optional string argument is falsy when it is left out or empty. *)
Definition isTruthy (text : option string) : bool :=
  match text with
  | Some t => negb (bool_decide (t = EmptyString))
  | None => false
  end.

Section Creators.

(** [kind.toString()], and the class [NamespacedVariableNameExpression]:
    the enumeration [TokenKind] and the expression classes are declared
    outside the sources at hand.  An expression is the constructor call that
    made it, with its arguments. *)
Variable kindToString : TokenKind -> string.
Variable NamespacedVariableNameExpression : Type.

#[warnings="-register-all"]
Inductive Expression :=
| VariableExpression (name : Token) (namespaceName : option NamespacedVariableNameExpression)
| DottedGetExpression (obj : Expression) (name : Token) (dot : Token)
| LiteralExpression (token : Token)
| CallExpression (callee : Expression) (openingParen closingParen : Token)
    (args : list Expression) (namespaceName : option NamespacedVariableNameExpression).

(** [createToken(kind, text?, range = interpolatedRange)]. *)
Definition createToken (kind : TokenKind) (text : option string) (range : option Range)
  : Token :=
  let range := default interpolatedRange range in
  Token.mk kind
    (if isTruthy text then default EmptyString text else kindToString kind)
    (negb (isTruthy text) || bool_decide (text = Some (kindToString kind)))
    range
    EmptyString.

(** [createIdentifier]; [createDottedIdentifier] may hand it [path[0]] of an
    empty array, which is [undefined]. *)
Definition createIdentifier (ident : option string) (range : option Range)
    (namespaceName : option NamespacedVariableNameExpression) : Expression :=
  VariableExpression (createToken TokenKind.Identifier ident range) namespaceName.

(** [createDottedIdentifier]: the expression, and the array [path] as the
    calls to [path.pop()] leave it.  The fuel bounds the depth of the
    recursion; a call pops one element before it recurses. *)
Fixpoint createDottedIdentifierRec (fuel : nat) (path : list string)
    (range : option Range) (namespaceName : option NamespacedVariableNameExpression)
  : Expression * list string :=
  let ident := last path in
  let path := removelast path in
  let '(obj, path) :=
    match fuel with
    | S fuel' =>
        if 1 <? length path
        then createDottedIdentifierRec fuel' path range namespaceName
        else (createIdentifier (head path) range namespaceName, path)
    | 0 => (createIdentifier (head path) range namespaceName, path)
    end in
  (DottedGetExpression obj (createToken TokenKind.Identifier ident range)
                       (createToken TokenKind.Dot (Some ".") range),
   path).

Definition createDottedIdentifier (path : list string) (range : option Range)
    (namespaceName : option NamespacedVariableNameExpression)
  : Expression * list string :=
  createDottedIdentifierRec (length path) path range namespaceName.

Definition createStringLiteral (value : string) (range : option Range) : Expression :=
  LiteralExpression (createToken TokenKind.StringLiteral (Some value) range).

Definition createIntegerLiteral (value : string) (range : option Range) : Expression :=
  LiteralExpression (createToken TokenKind.IntegerLiteral (Some value) range).

Definition createFloatLiteral (value : string) (range : option Range) : Expression :=
  LiteralExpression (createToken TokenKind.FloatLiteral (Some value) range).

Definition createInvalidLiteral (value : option string) (range : option Range)
  : Expression :=
  LiteralExpression (createToken TokenKind.Invalid value range).

Definition createBooleanLiteral (value : string) (range : option Range) : Expression :=
  LiteralExpression
    (createToken (if bool_decide (value = "true") then TokenKind.True else TokenKind.False)
                 (Some value) range).

Definition createCall (callee : Expression) (args : option (list Expression))
    (namespaceName : option NamespacedVariableNameExpression) : Expression :=
  CallExpression callee
    (createToken TokenKind.LeftParen (Some "(") None)
    (createToken TokenKind.RightParen (Some ")") None)
    (default [] args)
    namespaceName.

(** The names along a chain of dotted gets, from the innermost object
    outwards. *)
Fixpoint dottedNames (e : Expression) : list string :=
  match e with
  | VariableExpression name _ => [Token.text name]
  | DottedGetExpression obj name _ => dottedNames obj ++ [Token.text name]
  | _ => []
  end.

(** The tokens of an expression that the creators above made. *)
Fixpoint tokensOf (e : Expression) : list Token :=
  match e with
  | VariableExpression name _ => [name]
  | DottedGetExpression obj name dot => tokensOf obj ++ [name; dot]
  | LiteralExpression token => [token]
  | CallExpression callee openingParen closingParen _ _ =>
      tokensOf callee ++ [openingParen; closingParen]
  end.

(** The text a token gets for a part of a path: the part itself, or the
    name of the kind when the part is empty. *)
Definition textOfPart (kind : TokenKind) (part : string) : string :=
  if bool_decide (part = EmptyString) then kindToString kind else part.

End Creators.

Arguments VariableExpression {_} _ _.
Arguments DottedGetExpression {_} _ _ _.
Arguments LiteralExpression {_} _.
Arguments CallExpression {_} _ _ _ _ _.
Arguments dottedNames {_} _.
Arguments tokensOf {_} _.

(** * Properties *)

(** ** Running the monads *)

Lemma exec_bind {S A B} (m : State S A) (k : A -> State S B) (s : S) :
  exec (bind m k) s = exec (k (eval m s)) (exec m s).
Proof. unfold exec, eval, bind. by destruct (m s). Qed.

Lemma eval_bind {S A B} (m : State S A) (k : A -> State S B) (s : S) :
  eval (bind m k) s = eval (k (eval m s)) (exec m s).
Proof. unfold exec, eval, bind. by destruct (m s). Qed.

Lemma run_eta {S A} (m : State S A) (s : S) : m s = (eval m s, exec m s).
Proof. unfold exec, eval. by destruct (m s). Qed.

Lemma bind_run {S A B} (m : State S A) (k : A -> State S B) (s : S) :
  bind m k s = k (eval m s) (exec m s).
Proof. unfold exec, eval, bind. by destruct (m s). Qed.

(** ** Pushing diagnostics *)

Lemma pushAll_nil s : pushAll [] s = s.
Proof. destruct s. unfold pushAll. simpl. by rewrite app_nil_r. Qed.

Lemma pushAll_app ds1 ds2 s : pushAll ds2 (pushAll ds1 s) = pushAll (ds1 ++ ds2) s.
Proof. unfold pushAll. simpl. by rewrite app_assoc. Qed.

Lemma pushDiagnostic_run d s : pushDiagnostic d s = (tt, pushAll [d] s).
Proof. reflexivity. Qed.

Lemma ret_run s : @ret ScopeState unit tt s = (tt, pushAll [] s).
Proof. by rewrite pushAll_nil. Qed.

(** A loop whose body only pushes diagnostics pushes their concatenation. *)
Lemma forEach_pushAll {A} (f : A -> list BsDiagnostic) (body : A -> L unit) l :
  (forall x s, body x s = (tt, pushAll (f x) s)) ->
  forall s, forEach l body s = (tt, pushAll (flat_map f l) s).
Proof.
  intros Hbody. induction l as [|x l IH]; intros s; simpl.
  - apply ret_run.
  - unfold bind. rewrite Hbody, IH, pushAll_app. reflexivity.
Qed.

Lemma addDiagnostics_run ds s : addDiagnostics ds s = (tt, pushAll ds s).
Proof.
  unfold addDiagnostics.
  rewrite (forEach_pushAll (fun d => [d])) by apply pushDiagnostic_run.
  f_equal. f_equal. induction ds; simpl; congruence.
Qed.

Lemma when_pushAll (c : bool) (m : L unit) ds s :
  m s = (tt, pushAll ds s) ->
  when c m s = (tt, pushAll (if c then ds else []) s).
Proof. destruct c; simpl; [done|]. intros _. apply ret_run. Qed.

(** ** The arity check *)

Lemma countParams_fold params minParams maxParams :
  fold_left
    (fun '(minParams, maxParams) param =>
       let maxParams := S maxParams in
       if bool_decide (CallableParam.isOptional param = false)
       then (S minParams, maxParams)
       else (minParams, maxParams))
    params (minParams, maxParams)
  = (minParams
     + length (List.filter (fun x => negb (CallableParam.isOptional x)) params),
     maxParams + length params).
Proof.
  revert minParams maxParams.
  induction params as [|x params IH]; intros minParams maxParams; simpl.
  - f_equal; lia.
  - destruct (CallableParam.isOptional x); simpl; rewrite IH; f_equal; simpl; lia.
Qed.

Lemma countParams_spec params :
  countParams params
  = (length (List.filter (fun x => negb (CallableParam.isOptional x)) params),
     length params).
Proof. unfold countParams. by rewrite countParams_fold. Qed.

Lemma arity_check_run file map s :
  diagnosticDetectFunctionCallsWithWrongParamCount file map s
  = (tt, pushAll (flat_map (expectedArityDiagnostics file map) (BscFile.functionCalls file)) s).
Proof.
  unfold diagnosticDetectFunctionCallsWithWrongParamCount.
  apply forEach_pushAll. intros expCall s'. unfold expectedArityDiagnostics.
  destruct (mapGet map _) as [[|known rest]|]; simpl; try apply ret_run.
  rewrite countParams_spec.
  set (minParams := length (List.filter _ _)).
  set (maxParams := length (Callable.params _)).
  set (argCount := length (FunctionCall.args expCall)).
  erewrite when_pushAll by apply pushDiagnostic_run.
  destruct (bool_decide (argCount < minParams \/ maxParams < argCount)) eqn:Hout.
  - apply bool_decide_eq_true in Hout.
    replace ((maxParams <? argCount) || (argCount <? minParams)) with true; [done|].
    symmetry. apply orb_true_iff. rewrite !Nat.ltb_lt. tauto.
  - apply bool_decide_eq_false in Hout.
    replace ((maxParams <? argCount) || (argCount <? minParams)) with false; [done|].
    symmetry. apply orb_false_iff. rewrite !Nat.ltb_ge. lia.
Qed.

(** C4.  The arity check appends to the diagnostics of the scope, call by
    call in the order of [file.functionCalls], exactly the expected arity
    diagnostics: for a call whose lower-case name has a callable in the map,
    one mismatch diagnostic if and only if the number of arguments is
    strictly below [minParams] or strictly above [maxParams] of the first
    such callable, with the display [maxParams] when the bounds agree and
    ["min-max"] otherwise.  Nothing else of the scope changes. *)
Theorem arity_check_diagnostics (file : BscFile) (map : CallableContainerMap)
    (s : ScopeState) :
  let s' := exec (diagnosticDetectFunctionCallsWithWrongParamCount file map) s in
  ScopeState.diagnostics s'
  = ScopeState.diagnostics s
    ++ flat_map (expectedArityDiagnostics file map) (BscFile.functionCalls file)
  /\ ScopeState.isValidated s' = ScopeState.isValidated s
  /\ ScopeState.cache s' = ScopeState.cache s.
Proof.
  unfold exec. rewrite arity_check_run. simpl. done.
Qed.

(** ** Calls to unknown functions *)

Lemma lowerAscii_idemp c : lowerAscii (lowerAscii c) = lowerAscii c.
Proof. destruct c as [[] [] [] [] [] [] [] []]; reflexivity. Qed.

Lemma toLowerCase_idemp s : toLowerCase (toLowerCase s) = toLowerCase s.
Proof.
  induction s as [|c s IH]; simpl; [done|]. by rewrite lowerAscii_idemp, IH.
Qed.

Lemma find_is_None_existsb {A} (f : A -> bool) l :
  match List.find f l with Some _ => true | None => false end = existsb f l.
Proof. induction l as [|x l IH]; simpl; [done|]. by destruct (f x). Qed.

Lemma existsb_pointwise {A} (f g : A -> bool) l :
  (forall x, f x = g x) -> existsb f l = existsb g l.
Proof. intros E. induction l as [|x l IH]; simpl; [done|]. by rewrite E, IH. Qed.

Lemma getVariableByName_hasLocalVariable file expCall :
  match
    match BscFile.getFunctionScopeAtPosition file
            (Range.start (FunctionCall.nameRange expCall)) with
    | Some functionScope =>
        getVariableByName functionScope (toLowerCase (FunctionCall.name expCall))
    | None => None
    end
  with Some _ => true | None => false end
  = hasLocalVariable file expCall.
Proof.
  unfold hasLocalVariable, getVariableByName.
  destruct (BscFile.getFunctionScopeAtPosition _ _); [|done].
  rewrite find_is_None_existsb. apply existsb_pointwise. intros v.
  by rewrite toLowerCase_idemp.
Qed.

Lemma unknown_calls_run this file map s :
  diagnosticDetectCallsToUnknownFunctions this file map s
  = (tt, pushAll (flat_map (expectedUnknownCallDiagnostics this file map)
                           (BscFile.functionCalls file)) s).
Proof.
  unfold diagnosticDetectCallsToUnknownFunctions.
  apply forEach_pushAll. intros expCall s'.
  unfold expectedUnknownCallDiagnostics, isSuperInBsFile.
  rewrite bool_decide_and.
  destruct (bool_decide (BscFile.extension file = ".bs") && _); simpl.
  { apply ret_run. }
  rewrite <- getVariableByName_hasLocalVariable. unfold hasCallable.
  destruct (match BscFile.getFunctionScopeAtPosition _ _ with
            | Some functionScope => _ | None => None end); simpl.
  { apply ret_run. }
  destruct (mapGet map _) as [[|known rest]|]; simpl;
    first [apply ret_run | apply pushDiagnostic_run].
Qed.

(** ** Duplicate and override detection *)

Lemma emitted_pushAll {A} (m : L A) ds s :
  exec m s = pushAll ds s -> emitted m s = ds.
Proof.
  intros E. unfold emitted. rewrite E. simpl. by rewrite drop_app_length.
Qed.

Lemma partitionContainers_fold this globalScope containers acc :
  let isGlobal c := bool_decide (CallableContainer.scope c = globalScope) in
  let isOwn c := bool_decide (CallableContainer.scope c = this) in
  fold_left
    (fun acc container =>
       if bool_decide (CallableContainer.scope container = globalScope) then
         Partition.mk (Partition.globalCallables acc ++ [container])
                      (Partition.nonGlobalCallables acc)
                      (Partition.ownCallables acc)
                      (Partition.ancestorNonGlobalCallables acc)
       else if bool_decide (CallableContainer.scope container = this) then
         Partition.mk (Partition.globalCallables acc)
                      (Partition.nonGlobalCallables acc ++ [container])
                      (Partition.ownCallables acc ++ [container])
                      (Partition.ancestorNonGlobalCallables acc)
       else
         Partition.mk (Partition.globalCallables acc)
                      (Partition.nonGlobalCallables acc ++ [container])
                      (Partition.ownCallables acc)
                      (Partition.ancestorNonGlobalCallables acc ++ [container]))
    containers acc
  = Partition.mk
      (Partition.globalCallables acc ++ List.filter isGlobal containers)
      (Partition.nonGlobalCallables acc
       ++ List.filter (fun c => negb (isGlobal c)) containers)
      (Partition.ownCallables acc
       ++ List.filter (fun c => negb (isGlobal c) && isOwn c) containers)
      (Partition.ancestorNonGlobalCallables acc
       ++ List.filter (fun c => negb (isGlobal c) && negb (isOwn c)) containers).
Proof.
  intros isGlobal isOwn. revert acc.
  induction containers as [|c containers IH]; intros acc; simpl.
  - destruct acc; simpl. by rewrite !app_nil_r.
  - rewrite IH. subst isGlobal isOwn. simpl.
    destruct (bool_decide (CallableContainer.scope c = globalScope)); simpl;
      [|destruct (bool_decide (CallableContainer.scope c = this)); simpl];
      by rewrite <- ?app_assoc.
Qed.

Lemma partitionContainers_own program this containers :
  Partition.ownCallables
    (partitionContainers this (Program.globalScope program) containers)
  = ownCallablesOf program this containers.
Proof. unfold partitionContainers. by rewrite partitionContainers_fold. Qed.

Lemma partitionContainers_ancestors program this containers :
  Partition.ancestorNonGlobalCallables
    (partitionContainers this (Program.globalScope program) containers)
  = ancestorCallablesOf program this containers.
Proof. unfold partitionContainers. by rewrite partitionContainers_fold. Qed.

Lemma flat_map_singleton_filter {A B} (f : A -> B) (keep : A -> bool) l :
  flat_map (fun x => if keep x then [f x] else []) l = List.map f (List.filter keep l).
Proof.
  induction l as [|x l IH]; simpl; [done|]. destruct (keep x); simpl; by rewrite IH.
Qed.

Lemma flat_map_singleton {A B} (f : A -> B) l :
  flat_map (fun x => [f x]) l = List.map f l.
Proof. induction l as [|x l IH]; simpl; congruence. Qed.

Lemma flat_map_nil {A B} (l : list A) : flat_map (fun _ => @nil B) l = [].
Proof. induction l as [|x l IH]; simpl; congruence. Qed.

Lemma duplicates_run program this map s :
  diagnosticFindDuplicateFunctionDeclarations program this map s
  = (tt, pushAll
           (flat_map
              (fun entry => expectedOverrideDiagnostics program this entry
                            ++ expectedDuplicateDiagnostics program this entry)
              map) s).
Proof.
  unfold diagnosticFindDuplicateFunctionDeclarations.
  apply forEach_pushAll. intros [lowerName containers] s'.
  rewrite partitionContainers_own, partitionContainers_ancestors.
  unfold expectedOverrideDiagnostics, expectedDuplicateDiagnostics. simpl.
  set (own := ownCallablesOf program this containers).
  set (ancestors := ancestorCallablesOf program this containers).
  set (keep shadowed c :=
         negb (bool_decide (Callable.file (CallableContainer.callable shadowed)
                            = Callable.file (CallableContainer.callable c)))).
  set (overrides :=
         match last ancestors with
         | Some shadowed =>
             if bool_decide (lowerName = "init") then []
             else List.map (fun c => overridesAncestorDiagnostic c shadowed)
                           (List.filter (keep shadowed) own)
         | None => []
         end).
  set (duplicates :=
         if 2 <=? length own then List.map duplicateFunctionDiagnostic own else []).
  assert (forall s0,
            when ((0 <? length own) && (0 <? length ancestors))
              (forEach own (fun container =>
                 if negb (bool_decide (lowerName = "init")) then
                   match last ancestors with
                   | Some shadowedCallable =>
                       if bool_decide
                            (Callable.file (CallableContainer.callable shadowedCallable)
                             = Callable.file (CallableContainer.callable container))
                       then ret tt
                       else pushDiagnostic
                              (overridesAncestorDiagnostic container shadowedCallable)
                   | None => ret tt
                   end
                 else ret tt)) s0
            = (tt, pushAll overrides s0)) as Hoverrides.
  { intros s0. subst overrides.
    destruct (last ancestors) as [shadowed|] eqn:Hlast.
    - assert ((0 <? length ancestors) = true) as ->.
      { apply Nat.ltb_lt. destruct ancestors; [done|simpl; lia]. }
      rewrite andb_true_r.
      destruct (bool_decide (lowerName = "init")); simpl.
      + erewrite when_pushAll
          by (apply (forEach_pushAll (fun _ => [])); intros; apply ret_run).
        rewrite flat_map_nil. by destruct (0 <? length own).
      + erewrite when_pushAll.
        2:{ apply (forEach_pushAll
                     (fun c => if keep shadowed c
                               then [overridesAncestorDiagnostic c shadowed] else [])).
            intros c s1. subst keep. simpl.
            destruct (bool_decide _); simpl; [apply ret_run | apply pushDiagnostic_run]. }
        rewrite flat_map_singleton_filter.
        destruct own; simpl; done.
    - apply last_None in Hlast. rewrite Hlast. rewrite andb_false_r. apply ret_run. }
  assert (forall s0,
            when (1 <? length own)
              (forEach own (fun callableContainer =>
                 pushDiagnostic (duplicateFunctionDiagnostic callableContainer))) s0
            = (tt, pushAll duplicates s0)) as Hduplicates.
  { intros s0. subst duplicates.
    erewrite when_pushAll
      by (apply (forEach_pushAll (fun c => [duplicateFunctionDiagnostic c]));
          intros; apply pushDiagnostic_run).
    rewrite flat_map_singleton. reflexivity. }
  unfold bind. rewrite Hoverrides, Hduplicates, pushAll_app. reflexivity.
Qed.

Lemma filter_map_all {A B} (keep : B -> bool) (f : A -> B) l :
  (forall x, keep (f x) = true) -> List.filter keep (List.map f l) = List.map f l.
Proof. intros E. induction l as [|x l IH]; simpl; [done|]. by rewrite E, IH. Qed.

Lemma filter_map_none {A B} (keep : B -> bool) (f : A -> B) l :
  (forall x, keep (f x) = false) -> List.filter keep (List.map f l) = [].
Proof. intros E. induction l as [|x l IH]; simpl; [done|]. by rewrite E, IH. Qed.

Lemma isOverridesAncestor_expectedOverride program this entry :
  List.filter isOverridesAncestor (expectedOverrideDiagnostics program this entry)
  = expectedOverrideDiagnostics program this entry.
Proof.
  unfold expectedOverrideDiagnostics.
  destruct (last _); [|done]. destruct (bool_decide _); [done|].
  by apply filter_map_all.
Qed.

Lemma isOverridesAncestor_expectedDuplicate program this entry :
  List.filter isOverridesAncestor (expectedDuplicateDiagnostics program this entry) = [].
Proof.
  unfold expectedDuplicateDiagnostics. destruct (2 <=? _); [|done].
  by apply filter_map_none.
Qed.

Lemma isDuplicateFunction_expectedOverride program this entry :
  List.filter isDuplicateFunction (expectedOverrideDiagnostics program this entry) = [].
Proof.
  unfold expectedOverrideDiagnostics.
  destruct (last _); [|done]. destruct (bool_decide _); [done|].
  by apply filter_map_none.
Qed.

Lemma isDuplicateFunction_expectedDuplicate program this entry :
  List.filter isDuplicateFunction (expectedDuplicateDiagnostics program this entry)
  = expectedDuplicateDiagnostics program this entry.
Proof.
  unfold expectedDuplicateDiagnostics. destruct (2 <=? _); [|done].
  by apply filter_map_all.
Qed.

Lemma filter_flat_map {A B} (keep : B -> bool) (f : A -> list B) l :
  List.filter keep (flat_map f l) = flat_map (fun x => List.filter keep (f x)) l.
Proof.
  induction l as [|x l IH]; simpl; [done|]. by rewrite List.filter_app, IH.
Qed.

Lemma flat_map_pointwise {A B} (f g : A -> list B) l :
  (forall x, f x = g x) -> flat_map f l = flat_map g l.
Proof. intros E. induction l as [|x l IH]; simpl; [done|]. by rewrite E, IH. Qed.

(** For a scope other than the global scope, the own containers are those
    the scope surfaced, and the ancestor containers are those of the scopes
    other than it and the global scope. *)
Lemma ownCallablesOf_not_global program this containers :
  this <> Program.globalScope program ->
  ownCallablesOf program this containers
  = List.filter (fun c => bool_decide (CallableContainer.scope c = this)) containers.
Proof.
  intros Hne. unfold ownCallablesOf.
  induction containers as [|c containers IH]; simpl; [done|]. rewrite IH.
  destruct (bool_decide_reflect (CallableContainer.scope c = this)) as [->|];
    [|by rewrite andb_false_r].
  by rewrite (bool_decide_eq_false_2 _ Hne).
Qed.

(** C5.  Among the diagnostics that duplicate/override detection adds to the
    scope, the overrides-ancestor ones are, name by name in the order of the
    map: for a name with at least one own callable and at least one
    container of a non-global ancestor, one diagnostic per own callable, each
    referring to the last container of the ancestor list; none when the name
    is [init], and none for an own callable whose file is the file of that
    last ancestor container. *)
Theorem override_diagnostics (program : Program) (this : Scope)
    (map : CallableContainerMap) (s : ScopeState) :
  List.filter isOverridesAncestor
    (emitted (diagnosticFindDuplicateFunctionDeclarations program this map) s)
  = flat_map (expectedOverrideDiagnostics program this) map.
Proof.
  erewrite emitted_pushAll by (unfold exec; by rewrite duplicates_run).
  rewrite filter_flat_map. apply flat_map_pointwise. intros entry.
  rewrite List.filter_app, isOverridesAncestor_expectedOverride,
    isOverridesAncestor_expectedDuplicate.
  apply app_nil_r.
Qed.

Lemma filter_none {A} (keep : A -> bool) l :
  Forall (fun x => keep x = false) l -> List.filter keep l = [].
Proof. induction 1 as [|x l Hx _ IH]; simpl; [done|]. by rewrite Hx. Qed.

Lemma ownCallablesOf_global program containers :
  ownCallablesOf program (Program.globalScope program) containers = [].
Proof.
  apply filter_none, Forall_forall. intros c _.
  by destruct (bool_decide (CallableContainer.scope c = Program.globalScope program)).
Qed.

(** C6, as stated, fails on the global scope: its files declare [run]
    twice, and duplicate detection, run on the global scope, reports nothing
    where two diagnostics are asked for. *)
Lemma duplicates_not_for_every_scope :
  emitted
    (diagnosticFindDuplicateFunctionDeclarations emptyProgram globalScopeHandle
       [("run", [CallableContainer.mk (runIn 1 "pkg:/source/a.brs") globalScopeHandle;
                 CallableContainer.mk (runIn 2 "pkg:/source/b.brs") globalScopeHandle])])
    ScopeState.initial
  = []
  /\ length
       (statedDuplicateDiagnostics globalScopeHandle
          ("run", [CallableContainer.mk (runIn 1 "pkg:/source/a.brs") globalScopeHandle;
                   CallableContainer.mk (runIn 2 "pkg:/source/b.brs") globalScopeHandle]))
     = 2
  /\ ~ (forall program this map s,
         List.filter isDuplicateFunction
           (emitted (diagnosticFindDuplicateFunctionDeclarations program this map) s)
         = flat_map (statedDuplicateDiagnostics this) map).
Proof.
  split; [reflexivity|]. split; [reflexivity|].
  intros H.
  specialize (H emptyProgram globalScopeHandle
                [("run",
                  [CallableContainer.mk (runIn 1 "pkg:/source/a.brs") globalScopeHandle;
                   CallableContainer.mk (runIn 2 "pkg:/source/b.brs") globalScopeHandle])]
                ScopeState.initial).
  vm_compute in H. discriminate H.
Qed.

(** C6, amended.  Among the diagnostics that duplicate/override detection
    adds to the scope, the duplicate-function-implementation ones are, name
    by name in the order of the map, one per own callable of the name when
    the scope has two or more own callables of that name, and none when it
    has at most one: [n >= 2] own callables of a name yield [n] diagnostics.
    The own callables are the containers of the scope at hand, unless that
    scope is the global scope, which has no own callables: on the global
    scope nothing is reported. *)
Theorem duplicate_diagnostics (program : Program) (this : Scope)
    (map : CallableContainerMap) (s : ScopeState) :
  List.filter isDuplicateFunction
    (emitted (diagnosticFindDuplicateFunctionDeclarations program this map) s)
  = flat_map (expectedDuplicateDiagnostics program this) map
  /\ (forall entry,
        length (expectedDuplicateDiagnostics program this entry)
        = let n := length (ownCallablesOf program this entry.2) in
          if 2 <=? n then n else 0)
  /\ (forall containers,
        ownCallablesOf program this containers
        = if bool_decide (this = Program.globalScope program) then []
          else List.filter (fun c => bool_decide (CallableContainer.scope c = this))
                           containers)
  /\ (forall entry,
        expectedDuplicateDiagnostics program this entry
        = if bool_decide (this = Program.globalScope program) then []
          else statedDuplicateDiagnostics this entry).
Proof.
  assert (forall containers,
            ownCallablesOf program this containers
            = if bool_decide (this = Program.globalScope program) then []
              else List.filter (fun c => bool_decide (CallableContainer.scope c = this))
                               containers) as Hown.
  { intros containers. case_bool_decide as Hglobal.
    - subst this. apply ownCallablesOf_global.
    - by apply ownCallablesOf_not_global. }
  split; [|split; [|split; [exact Hown|]]].
  - erewrite emitted_pushAll by (unfold exec; by rewrite duplicates_run).
    rewrite filter_flat_map. apply flat_map_pointwise. intros entry.
    by rewrite List.filter_app, isDuplicateFunction_expectedOverride,
      isDuplicateFunction_expectedDuplicate.
  - intros entry. unfold expectedDuplicateDiagnostics. cbv zeta.
    destruct (_ <=? _); [apply length_map|done].
  - intros entry. unfold expectedDuplicateDiagnostics, statedDuplicateDiagnostics.
    cbv zeta. rewrite Hown. by case_bool_decide.
Qed.

(** ** The files of a scope and its cache *)

Lemma getAllFiles_cached program this files s :
  cached files s -> getAllFiles program this s = (files, s).
Proof.
  unfold cached, getAllFiles, bind, getCache. simpl. by intros ->.
Qed.

Lemma getAllFiles_fills program this s :
  cached (eval (getAllFiles program this) s) (exec (getAllFiles program this) s).
Proof.
  unfold cached, eval, exec, getAllFiles, bind, getCache. simpl.
  destruct (ScopeState.cache s !! "getAllFiles") as [[files|names]|] eqn:E; simpl;
    first [ done | apply lookup_insert_eq ].
Qed.

Lemma getAllFiles_frame program this s :
  ScopeState.diagnostics (exec (getAllFiles program this) s) = ScopeState.diagnostics s
  /\ ScopeState.isValidated (exec (getAllFiles program this) s) = ScopeState.isValidated s.
Proof.
  unfold exec, getAllFiles, bind, getCache. simpl.
  by destruct (ScopeState.cache s !! "getAllFiles") as [[files|names]|].
Qed.

Lemma cached_pushAll files ds s : cached files s -> cached files (pushAll ds s).
Proof. done. Qed.

(** A loop whose body only pushes diagnostics, as long as the cache holds
    the files of the scope. *)
Lemma forEach_pushAll_cached {A} files (f : A -> list BsDiagnostic) (body : A -> L unit) l :
  (forall x s, cached files s -> body x s = (tt, pushAll (f x) s)) ->
  forall s, cached files s -> forEach l body s = (tt, pushAll (flat_map f l) s).
Proof.
  intros Hbody. induction l as [|x l IH]; intros s Hs; simpl.
  - apply ret_run.
  - unfold bind. rewrite Hbody by done.
    rewrite IH by by apply cached_pushAll. by rewrite pushAll_app.
Qed.

(** A callback without effects on the scope makes [enumerateFiles] a fold
    over the files without a typedef. *)
Lemma enumerateFiles_pure {V} (g : BscFile -> V -> V) (callback : BscFile -> V -> L V)
    files locals s :
  (forall file locals s, callback file locals s = (g file locals, s)) ->
  enumerateFiles files callback locals s
  = (fold_left (fun locals file => if BscFile.hasTypedef file then locals
                                   else g file locals) files locals, s).
Proof.
  intros Hcb. revert locals.
  induction files as [|file files IH]; intros locals; simpl; [done|].
  destruct (BscFile.hasTypedef file); [apply IH|].
  unfold bind. rewrite Hcb. apply IH.
Qed.

Lemma fold_left_skip_flat_map {A B} (skip : A -> bool) (f : A -> list B) l acc :
  fold_left (fun acc x => if skip x then acc else acc ++ f x) l acc
  = acc ++ flat_map (fun x => if skip x then [] else f x) l.
Proof.
  revert acc. induction l as [|x l IH]; intros acc; simpl.
  - by rewrite app_nil_r.
  - rewrite IH. destruct (skip x); simpl; [done|]. by rewrite app_assoc.
Qed.

Lemma emitted_pushAll_frame {A} (m : L A) ds s s1 :
  exec m s = pushAll ds s1 ->
  ScopeState.diagnostics s1 = ScopeState.diagnostics s ->
  emitted m s = ds.
Proof.
  intros E D. unfold emitted. rewrite E. simpl. rewrite D. by rewrite drop_app_length.
Qed.

(** ** Script imports *)

Lemma length_zero_empty s : (String.length s =? 0) = bool_decide (s = EmptyString).
Proof. by destruct s. Qed.

Lemma getOwnScriptImports_run program this s :
  getOwnScriptImports program this s
  = (scriptImportsOf (eval (getOwnFiles program this) s),
     exec (getAllFiles program this) s).
Proof.
  unfold getOwnScriptImports, enumerateOwnFiles, getOwnFiles, bind.
  rewrite (run_eta (getAllFiles program this) s).
  rewrite (enumerateFiles_pure
             (fun file result =>
                result ++ match BscFile.kind file with
                          | BrsFileKind => BscFile.ownScriptImports file
                          | XmlFileKind => BscFile.scriptTagImports file
                          end)).
  - f_equal. unfold scriptImportsOf. by rewrite fold_left_skip_flat_map.
  - intros file result s'. unfold isBrsFile, isXmlFile.
    by destruct (BscFile.kind file).
Qed.

Lemma import_paths_run program this s :
  diagnosticValidateScriptImportPaths program this s
  = (tt, pushAll
           (flat_map (expectedImportDiagnostics (eval (getAllFiles program this) s))
                     (scriptImportsOf (eval (getOwnFiles program this) s)))
           (exec (getAllFiles program this) s)).
Proof.
  unfold diagnosticValidateScriptImportPaths, bind.
  rewrite getOwnScriptImports_run.
  apply (forEach_pushAll_cached (eval (getAllFiles program this) s));
    [|apply getAllFiles_fills].
  intros scriptImport s' Hs'.
  unfold getFileByRelativePath, bind. rewrite (getAllFiles_cached _ _ _ _ Hs'). simpl.
  unfold expectedImportDiagnostics, resolveImport.
  destruct (List.find _ _) as [referenced|]; simpl.
  - destruct (bool_decide _); simpl; [apply ret_run | apply pushDiagnostic_run].
  - rewrite pushDiagnostic_run, length_zero_empty. reflexivity.
Qed.

(** C7.  The import check adds to the diagnostics of the scope, import by
    import over the script imports of the own files without a typedef, what
    the resolution of the import against the files of [getAllFiles] by
    lower-cased pkgPath commands: with no file, src-cannot-be-empty when the
    trimmed text of the import is empty and referenced-file-does-not-exist
    otherwise; with a file of another casing, a case mismatch carrying the
    pkgPath of that file; with a file of the same pkgPath, nothing. *)
Theorem script_import_diagnostics (program : Program) (this : Scope) (s : ScopeState) :
  emitted (diagnosticValidateScriptImportPaths program this) s
  = flat_map (expectedImportDiagnostics (eval (getAllFiles program this) s))
             (scriptImportsOf (eval (getOwnFiles program this) s)).
Proof.
  eapply emitted_pushAll_frame.
  - unfold exec. by rewrite import_paths_run.
  - apply getAllFiles_frame.
Qed.

(** ** The checks of [validate] on the own files *)

Lemma validateFile_run env program this map file files s :
  cached files s ->
  validateFile env program this map file s
  = (tt, pushAll (expectedFileDiagnostics env this files map file) s).
Proof.
  intros Hs. unfold validateFile, bind.
  rewrite (getAllFiles_cached _ _ _ _ Hs), unknown_calls_run, arity_check_run.
  rewrite !addDiagnostics_run, !pushAll_app. unfold expectedFileDiagnostics.
  reflexivity.
Qed.

(** [enumerateFiles] with a callback that only pushes diagnostics. *)
Lemma enumerateFiles_pushAll_cached files (f : BscFile -> list BsDiagnostic)
    (callback : BscFile -> unit -> L unit) l :
  (forall file s, cached files s -> callback file tt s = (tt, pushAll (f file) s)) ->
  forall s, cached files s ->
    enumerateFiles l callback tt s
    = (tt, pushAll (flat_map (fun file => if BscFile.hasTypedef file then [] else f file) l) s).
Proof.
  intros Hcb. induction l as [|file l IH]; intros s Hs; simpl.
  - apply ret_run.
  - destruct (BscFile.hasTypedef file); simpl; [by apply IH|].
    unfold bind. rewrite Hcb by done.
    rewrite IH by by apply cached_pushAll. by rewrite pushAll_app.
Qed.

Lemma validateFiles_run env program this map s :
  enumerateOwnFiles program this
    (fun file (_ : unit) => validateFile env program this map file) tt s
  = (tt, pushAll
           (flat_map
              (fun file =>
                 if BscFile.hasTypedef file then []
                 else expectedFileDiagnostics env this (eval (getAllFiles program this) s)
                                              map file)
              (eval (getOwnFiles program this) s))
           (exec (getAllFiles program this) s)).
Proof.
  unfold enumerateOwnFiles, getOwnFiles, bind.
  rewrite (run_eta (getAllFiles program this) s).
  apply (enumerateFiles_pushAll_cached (eval (getAllFiles program this) s));
    [|apply getAllFiles_fills].
  intros file s' Hs'. by apply validateFile_run.
Qed.

(** C8.  The unknown-call check appends to the diagnostics of the scope,
    call by call in the order of [file.functionCalls], one
    call-to-unknown-function diagnostic carrying the name of the scope
    exactly for the calls that are not [super] in a [.bs] file, whose
    innermost function scope has no local variable of that lower-case name
    (whatever the type of the variable), and whose lower-case name has no
    callable in the map; nothing else of the scope changes.  In [validate]
    the check runs, first of the checks on a file, on exactly the own files
    without a typedef, in their order. *)
Theorem unknown_call_diagnostics (env : Collaborators) (program : Program)
    (this : Scope) (file : BscFile) (map : CallableContainerMap) (s : ScopeState) :
  ScopeState.diagnostics (exec (diagnosticDetectCallsToUnknownFunctions this file map) s)
  = ScopeState.diagnostics s
    ++ flat_map (expectedUnknownCallDiagnostics this file map) (BscFile.functionCalls file)
  /\ ScopeState.isValidated (exec (diagnosticDetectCallsToUnknownFunctions this file map) s)
     = ScopeState.isValidated s
  /\ ScopeState.cache (exec (diagnosticDetectCallsToUnknownFunctions this file map) s)
     = ScopeState.cache s
  /\ emitted
       (enumerateOwnFiles program this
          (fun file (_ : unit) => validateFile env program this map file) tt) s
     = flat_map
         (fun file =>
            if BscFile.hasTypedef file then []
            else expectedFileDiagnostics env this (eval (getAllFiles program this) s)
                                         map file)
         (eval (getOwnFiles program this) s).
Proof.
  unfold exec at 1 2 3. rewrite unknown_calls_run. simpl.
  split; [done|]. split; [done|]. split; [done|].
  eapply emitted_pushAll_frame.
  - unfold exec. by rewrite validateFiles_run.
  - apply getAllFiles_frame.
Qed.

(** ** Known namespaces *)

Lemma isKnownNamespace_false program this namespaceName s :
  eval (isKnownNamespace program this namespaceName) s = false.
Proof. unfold isKnownNamespace. by rewrite eval_bind. Qed.

(** C1.  With a script in the scope that declares the namespace [A.B.C], the
    callback of [isKnownNamespace] finds the namespace for [A], [A.B] and
    [A.B.C], and [isKnownNamespace] answers [false] for each of them. *)
Theorem isKnownNamespace_declared_namespace :
  eval (getAllFiles namespaceProgram sourceScopeHandle) ScopeState.initial
  = [namespaceFile]
  /\ BscFile.hasTypedef namespaceFile = false
  /\ isKnownNamespaceCallback (BscFile.namespaceStatements namespaceFile)
                              (toLowerCase "A") = Some true
  /\ isKnownNamespaceCallback (BscFile.namespaceStatements namespaceFile)
                              (toLowerCase "A.B") = Some true
  /\ isKnownNamespaceCallback (BscFile.namespaceStatements namespaceFile)
                              (toLowerCase "a.b.c") = Some true
  /\ eval (isKnownNamespace namespaceProgram sourceScopeHandle "A")
          ScopeState.initial = false
  /\ eval (isKnownNamespace namespaceProgram sourceScopeHandle "A.B")
          ScopeState.initial = false
  /\ eval (isKnownNamespace namespaceProgram sourceScopeHandle "A.B.C")
          ScopeState.initial = false.
Proof. repeat split; vm_compute; reflexivity. Qed.

(** ** The dependency graph *)

Lemma walkDependencies_NoDup fuel graph stack seen :
  NoDup seen -> NoDup (walkDependencies fuel graph stack seen).
Proof.
  revert stack seen. induction fuel as [|fuel IH]; intros stack seen Hseen; simpl.
  - done.
  - destruct stack as [|d rest]; [done|].
    case_bool_decide as Hd; apply IH; [done|].
    apply NoDup_app. split_and!; [done| |apply NoDup_singleton].
    intros x Hx ->%list_elem_of_singleton. done.
Qed.

Lemma getAllDependencies_NoDup graph key : NoDup (getAllDependencies graph key).
Proof. apply walkDependencies_NoDup. constructor. Qed.

Lemma walkDependencies_sound fuel graph stack seen x :
  x ∈ walkDependencies fuel graph stack seen ->
  x ∈ seen \/ exists d, d ∈ stack /\ rtc (dependsOn graph) d x.
Proof.
  revert stack seen. induction fuel as [|fuel IH]; intros stack seen; simpl; [by left|].
  destruct stack as [|d rest]; [by left|].
  case_bool_decide as Hd; intros Hx; apply IH in Hx as [Hx|(d' & Hd' & Hr)].
  - by left.
  - right. exists d'. split; [by right|done].
  - apply elem_of_app in Hx as [Hx|Hx%list_elem_of_singleton]; [by left|]. subst x.
    right. exists d. split; [by left|constructor].
  - right. apply elem_of_app in Hd' as [Hd'|Hd'].
    + exists d. split; [by left|]. by eapply rtc_l.
    + exists d'. split; [by right|done].
Qed.

Lemma pendingEdges_mono entries seen d :
  pendingEdges entries (seen ++ [d]) <= pendingEdges entries seen.
Proof.
  unfold pendingEdges. induction entries as [|e entries IH]; simpl; [done|].
  repeat case_bool_decide; try lia.
  exfalso. match goal with H : _ ∉ _ ++ _ |- _ => apply H end.
  apply elem_of_app. by left.
Qed.

Lemma pendingEdges_visit entries seen d deps :
  (d, deps) ∈ entries -> d ∉ seen ->
  length deps + pendingEdges entries (seen ++ [d]) <= pendingEdges entries seen.
Proof.
  unfold pendingEdges. intros Hin Hd.
  induction entries as [|e entries IH]; [by apply elem_of_nil in Hin|].
  apply elem_of_cons in Hin as [<-|Hin]; simpl.
  - rewrite bool_decide_eq_true_2
      by (apply elem_of_app; right; by apply list_elem_of_singleton).
    rewrite bool_decide_eq_false_2 by done.
    pose proof (pendingEdges_mono entries seen d) as Hmono.
    unfold pendingEdges in Hmono. lia.
  - specialize (IH Hin). repeat case_bool_decide; try lia.
    exfalso. match goal with H : _ ∉ _ ++ _ |- _ => apply H end.
    apply elem_of_app. by left.
Qed.

Lemma pendingEdges_step graph seen d :
  d ∉ seen ->
  length (directDependencies graph d) + pendingEdges (map_to_list graph) (seen ++ [d])
  <= pendingEdges (map_to_list graph) seen.
Proof.
  intros Hd. unfold directDependencies.
  destruct (graph !! d) as [deps|] eqn:E; simpl.
  - apply pendingEdges_visit; [|done]. by apply elem_of_map_to_list.
  - apply pendingEdges_mono.
Qed.

(** With fuel for every pending stack entry and edge, the walk ends with a
    list that holds what was seen and what was on the stack, and that is
    closed under the edges of the graph. *)
Lemma walkDependencies_closed fuel graph stack seen :
  length stack + pendingEdges (map_to_list graph) seen <= fuel ->
  (forall s t, s ∈ seen -> dependsOn graph s t -> t ∈ seen \/ t ∈ stack) ->
  (forall x, x ∈ seen \/ x ∈ stack -> x ∈ walkDependencies fuel graph stack seen)
  /\ (forall s t, s ∈ walkDependencies fuel graph stack seen -> dependsOn graph s t ->
                  t ∈ walkDependencies fuel graph stack seen).
Proof.
  revert stack seen. induction fuel as [|fuel IH]; intros stack seen Hfuel Hinv.
  - destruct stack; simpl in *; [|lia]. split.
    + intros x [Hx|Hx]; [done|by apply elem_of_nil in Hx].
    + intros s t Hs Hst. destruct (Hinv s t Hs Hst) as [?|Habs]; [done|].
      by apply elem_of_nil in Habs.
  - destruct stack as [|d rest]; simpl in *.
    { split.
      - intros x [Hx|Hx]; [done|by apply elem_of_nil in Hx].
      - intros s t Hs Hst. destruct (Hinv s t Hs Hst) as [?|Habs]; [done|].
        by apply elem_of_nil in Habs. }
    case_bool_decide as Hd.
    + destruct (IH rest seen) as [Hsub Hclosed]; [lia| |].
      { intros s t Hs Hst. destruct (Hinv s t Hs Hst) as [?|Ht]; [by left|].
        apply elem_of_cons in Ht as [->|?]; [by left|by right]. }
      split; [|done]. intros x [Hx|Hx]; [by apply Hsub; left|].
      apply elem_of_cons in Hx as [->|Hx]; apply Hsub; [by left|by right].
    + pose proof (pendingEdges_step graph seen d Hd) as Hstep.
      destruct (IH (directDependencies graph d ++ rest) (seen ++ [d])) as [Hsub Hclosed].
      { rewrite length_app. lia. }
      { intros s t Hs Hst. apply elem_of_app in Hs as [Hs|Hs%list_elem_of_singleton].
        2:{ subst s. right. apply elem_of_app. by left. }
        destruct (Hinv s t Hs Hst) as [?|Ht]; [left; apply elem_of_app; by left|].
        apply elem_of_cons in Ht as [->|?]; [left|right]; apply elem_of_app;
          [right; by apply list_elem_of_singleton|by right]. }
      split; [|done]. intros x [Hx|Hx]; apply Hsub.
      * left. apply elem_of_app. by left.
      * apply elem_of_cons in Hx as [->|Hx]; [left|right]; apply elem_of_app;
          [right; by apply list_elem_of_singleton|by right].
Qed.

Lemma directDependencies_edgeCount graph key :
  length (directDependencies graph key) <= edgeCount graph.
Proof.
  unfold directDependencies, edgeCount.
  destruct (graph !! key) as [deps|] eqn:E; simpl; [|lia].
  apply elem_of_map_to_list in E.
  induction (map_to_list graph) as [|e l IH]; [by apply elem_of_nil in E|].
  apply elem_of_cons in E as [<-|E]; simpl; [lia|]. specialize (IH E). lia.
Qed.

Lemma pendingEdges_nil entries :
  pendingEdges entries [] = sum_list_with (fun entry => length entry.2) entries.
Proof.
  unfold pendingEdges. induction entries as [|e l IH]; simpl; done.
Qed.

(** The dependencies of a key are the keys that a path of one edge or more
    leads to: the fuel of [getAllDependencies] is enough for the whole walk. *)
Lemma getAllDependencies_transitive graph key dependency :
  dependency ∈ getAllDependencies graph key <-> tc (dependsOn graph) key dependency.
Proof.
  unfold getAllDependencies. split.
  - intros [Hx|(d & Hd & Hr)]%walkDependencies_sound; [by apply elem_of_nil in Hx|].
    eapply tc_rtc_r; [|done]. by apply tc_once.
  - destruct (walkDependencies_closed (S (2 * edgeCount graph)) graph
                (directDependencies graph key) []) as [Hsub Hclosed].
    { rewrite pendingEdges_nil. pose proof (directDependencies_edgeCount graph key).
      unfold edgeCount in *. lia. }
    { intros s t Hs. by apply elem_of_nil in Hs. }
    intros Htc.
    assert (exists d, dependsOn graph key d /\ rtc (dependsOn graph) d dependency)
      as (d & Hd & Hr).
    { destruct Htc as [k x Hkx|k y x Hky Hyx].
      - exists x. split; [done|constructor].
      - exists y. split; [done|by apply tc_rtc]. }
    assert (d ∈ walkDependencies (S (2 * edgeCount graph)) graph
                  (directDependencies graph key) []) as Hin
      by (apply Hsub; by right).
    clear Hd Htc. induction Hr as [|a b c Hab _ IH]; [done|].
    apply IH. by eapply Hclosed.
Qed.

(** ** Own files and all files *)

Lemma loadAllFiles_fold program l acc :
  fold_left
    (fun result dependency =>
       if startsWith dependency "component:" then
         match Program.getComponent program (replaceComponentPattern dependency) with
         | Some compFile => result ++ [compFile]
         | None => result
         end
       else
         match Program.getFileByPkgPath program dependency with
         | Some file => result ++ [file]
         | None => result
         end)
    l acc
  = acc ++ omap (resolveDependency program) l.
Proof.
  revert acc. induction l as [|d l IH]; intros acc; simpl.
  - by rewrite app_nil_r.
  - rewrite IH. unfold resolveDependency, replaceComponentPattern.
    destruct (startsWith d "component:").
    + destruct (Program.getComponent program d); simpl; [by rewrite <- app_assoc|done].
    + destruct (Program.getFileByPkgPath program d); simpl; [by rewrite <- app_assoc|done].
Qed.

Lemma loadAllFiles_omap program this :
  loadAllFiles program this
  = omap (resolveDependency program)
         (getAllDependencies (Program.dependencyGraph program)
                             (Scope.dependencyGraphKey this)).
Proof. unfold loadAllFiles. by rewrite loadAllFiles_fold. Qed.

Lemma getAllFiles_after_invalidate program this s :
  eval (getAllFiles program this) (exec invalidate s) = loadAllFiles program this.
Proof. reflexivity. Qed.

(** C2, as stated, fails: [lib.brs] is in [getOwnFiles()] of the source scope
    although it is no direct dependency of the key of the scope. *)
Lemma getOwnFiles_not_only_direct :
  ~ (forall program this file,
       file ∈ eval (getOwnFiles program this) ScopeState.initial
       <-> isDirectDependency program this file).
Proof.
  intros H.
  destruct (proj1 (H importProgram sourceScopeHandle libFile)) as (d & Hd & Hres).
  - vm_compute. apply list_elem_of_In. right. left. reflexivity.
  - vm_compute in Hd. apply list_elem_of_In in Hd. destruct Hd as [<-|[]].
    vm_compute in Hres. discriminate Hres.
Qed.

(** C2, amended.  [getOwnFiles()] of a generic scope is [getAllFiles()]: the
    same result and the same effect on the cache.  Once the cache is
    cleared, a file appears in it if and only if some dependency of the key
    of the scope, direct or transitive, stands for it. *)
Theorem getOwnFiles_all_dependencies (program : Program) (this : Scope) (s : ScopeState) :
  getOwnFiles program this s = getAllFiles program this s
  /\ forall file,
       file ∈ eval (getOwnFiles program this) (exec invalidate s)
       <-> exists dependency,
             tc (dependsOn (Program.dependencyGraph program))
                (Scope.dependencyGraphKey this) dependency
             /\ resolveDependency program dependency = Some file.
Proof.
  split; [done|]. intros file. unfold getOwnFiles.
  rewrite getAllFiles_after_invalidate, loadAllFiles_omap, list_elem_of_omap.
  split; intros (d & Hd & Hres); exists d; split; try done;
    by apply getAllDependencies_transitive.
Qed.

(** ** The order and the entries of [getAllFiles] *)






(** ** The validation state *)

Lemma scopeState_insert_eq (h : Heap) this s : scopeState (<[this := s]> h) this = s.
Proof. unfold scopeState. by rewrite lookup_insert_eq. Qed.

Lemma scopeState_insert_ne (h : Heap) this other s :
  this <> other -> scopeState (<[this := s]> h) other = scopeState h other.
Proof. intros. unfold scopeState. by rewrite lookup_insert_ne. Qed.

Lemma scopeState_call {A} this (m : L A) h :
  scopeState (exec (call this m) h) this = exec m (scopeState h this).
Proof.
  unfold exec, call. destruct (m (scopeState h this)); simpl.
  apply scopeState_insert_eq.
Qed.

Lemma endsValidated_set : endsValidated (setIsValidated true).
Proof. done. Qed.

Lemma endsValidated_bind {A} (m : L A) (k : A -> L unit) :
  (forall a, endsValidated (k a)) -> endsValidated (bind m k).
Proof. intros Hk s. rewrite exec_bind. apply Hk. Qed.

Lemma validate_validates env program this force h :
  ScopeState.isValidated (scopeState (exec (validate env program this force) h) this) = true.
Proof.
  unfold validate. cbn [validateRec].
  rewrite exec_bind.
  destruct (ScopeState.isValidated (eval (getState this) h) && negb force) eqn:Hguard.
  - apply andb_true_iff in Hguard as [Hv _]. exact Hv.
  - rewrite exec_bind, exec_bind, exec_bind, scopeState_call.
    repeat (apply endsValidated_bind; intros ?).
    apply endsValidated_set.
Qed.

Lemma validate_when_validated env program this h :
  ScopeState.isValidated (scopeState h this) = true ->
  validate env program this false h = (tt, h).
Proof.
  intros Hv. unfold validate. cbn [validateRec].
  unfold bind at 1. unfold getState. by rewrite Hv.
Qed.

(** The fuel of [validate] is enough: the parent of a generic scope is the
    global scope, which has no parent. *)
Lemma getParentScope_parent program this parentScope :
  getParentScope program this = Some parentScope ->
  getParentScope program parentScope = None.
Proof.
  unfold getParentScope. case_bool_decide; [|done]. intros [= <-].
  by rewrite bool_decide_eq_false_2 by (intros H'; by apply H').
Qed.

Lemma getAllCallablesRec_fuel fuel program this h :
  getAllCallablesRec (2 + fuel) program this h = getAllCallables program this h.
Proof.
  unfold getAllCallables. cbn [getAllCallablesRec Nat.add].
  destruct (getParentScope program this) as [parentScope|] eqn:Hp; [|done].
  by rewrite (getParentScope_parent _ _ _ Hp).
Qed.

Lemma validateRec_fuel fuel env program this force h :
  validateRec (2 + fuel) env program this force h = validate env program this force h.
Proof.
  unfold validate. cbn [validateRec Nat.add].
  destruct (getParentScope program this) as [parentScope|] eqn:Hp; [|done].
  by rewrite (getParentScope_parent _ _ _ Hp).
Qed.

(** C9.  Whatever the first call of [validate] did, it leaves the scope
    validated, and a second call without [force] returns at once: the heap
    of scopes, hence the diagnostics of the scope and what [getDiagnostics]
    reports, are those left by the first call. *)
Theorem validate_twice (env : Collaborators) (program : Program) (this : Scope)
    (force : bool) (h : Heap) :
  ScopeState.isValidated (scopeState (exec (validate env program this force) h) this)
  = true
  /\ validate env program this false (exec (validate env program this force) h)
     = (tt, exec (validate env program this force) h)
  /\ ScopeState.diagnostics
       (scopeState
          (exec (validate env program this false)
                (exec (validate env program this force) h)) this)
     = ScopeState.diagnostics
         (scopeState (exec (validate env program this force) h) this)
  /\ eval (call this (getDiagnostics env program this))
          (exec (validate env program this false)
                (exec (validate env program this force) h))
     = eval (call this (getDiagnostics env program this))
            (exec (validate env program this force) h).
Proof.
  pose proof (validate_validates env program this force h) as Hv.
  pose proof (validate_when_validated env program this _ Hv) as Hagain.
  split; [exact Hv|]. split; [exact Hagain|].
  unfold exec at 1 4. rewrite Hagain. simpl. done.
Qed.

(** ** Invalidation *)

Lemma fold_left_skip_concat {A B} (skip : A -> bool) (f : A -> list B) l acc :
  concat (fold_left (fun acc x => if skip x then acc else acc ++ [f x]) l acc)
  = concat acc ++ flat_map (fun x => if skip x then [] else f x) l.
Proof.
  revert acc. induction l as [|x l IH]; intros acc; simpl.
  - by rewrite app_nil_r.
  - rewrite IH. destruct (skip x); [done|].
    rewrite concat_app. simpl. by rewrite app_nil_r, app_assoc.
Qed.

Lemma getDiagnostics_eval env program this s :
  eval (getDiagnostics env program this) s
  = List.filter (fun x => negb (Collaborators.diagnosticIsSuppressed env x))
      (ScopeState.diagnostics s
       ++ fileDiagnosticsOf (eval (getOwnFiles program this) s)).
Proof.
  unfold getDiagnostics. rewrite eval_bind. unfold getOwnDiagnostics at 1 2.
  unfold eval at 1 2, exec at 1. simpl.
  unfold enumerateOwnFiles, bind.
  rewrite (run_eta (getOwnFiles program this) s).
  rewrite (enumerateFiles_pure
             (fun file lists => lists ++ [BscFile.getDiagnostics file])) by done.
  simpl. rewrite fold_left_skip_concat. simpl. by rewrite app_nil_r.
Qed.

Lemma frames_ret {A} this (a : A) : frames this (ret a).
Proof. done. Qed.

Lemma frames_bind {A B} this (m : M A) (k : A -> M B) :
  frames this m -> (forall a, frames this (k a)) -> frames this (bind m k).
Proof.
  intros Hm Hk x h. unfold bind at 1. rewrite Hm, Hk.
  by rewrite eval_bind, exec_bind.
Qed.

Lemma frames_getState this other : this <> other -> frames this (getState other).
Proof.
  intros Hne x h. unfold getState, eval, exec. simpl.
  by rewrite scopeState_insert_ne.
Qed.

Lemma frames_call {A} this other (m : L A) : this <> other -> frames this (call other m).
Proof.
  intros Hne x h. unfold call, eval, exec.
  rewrite scopeState_insert_ne by done.
  destruct (m (scopeState h other)) as [a s']. simpl.
  by rewrite insert_insert_ne.
Qed.

Lemma frames_when this c (m : M unit) : frames this m -> frames this (when c m).
Proof. destruct c; [done|]. intros _. apply frames_ret. Qed.

(** Validating a scope without a parent does not look at other scopes. *)
Lemma frames_validateRec_root fuel env program this other force :
  this <> other ->
  getParentScope program other = None ->
  frames this (validateRec fuel env program other force).
Proof.
  intros Hne Hroot. destruct fuel as [|fuel]; [apply frames_ret|].
  cbn [validateRec]. rewrite Hroot.
  apply frames_bind; [by apply frames_getState|]. intros s.
  destruct (_ && _); [apply frames_ret|].
  apply frames_bind; [apply frames_ret|]. intros _.
  apply frames_bind; [by apply frames_call|]. intros _.
  apply frames_bind.
  - unfold getAllCallables. cbn [getAllCallablesRec]. rewrite Hroot.
    apply frames_bind; [by apply frames_call|]. intros own. apply frames_ret.
  - intros callables. by apply frames_call.
Qed.

(** With the scope not validated, or with [force], [validate] does not look
    at the diagnostics the scope holds. *)
Lemma validate_discards env program this force h (validated : bool)
    (cache : gmap string CacheValue) (ds1 ds2 : list BsDiagnostic) :
  validated && negb force = false ->
  validate env program this force (<[this := ScopeState.mk validated cache ds1]> h)
  = validate env program this force (<[this := ScopeState.mk validated cache ds2]> h).
Proof.
  intros Hguard. unfold validate. cbn [validateRec].
  set (x1 := ScopeState.mk validated cache ds1).
  set (x2 := ScopeState.mk validated cache ds2).
  rewrite (bind_run (getState this) _ (<[this := x1]> h)).
  rewrite (bind_run (getState this) _ (<[this := x2]> h)).
  replace (eval (getState this) (<[this := x1]> h)) with x1
    by (symmetry; apply scopeState_insert_eq).
  replace (eval (getState this) (<[this := x2]> h)) with x2
    by (symmetry; apply scopeState_insert_eq).
  replace (exec (getState this) (<[this := x1]> h)) with (<[this := x1]> h) by done.
  replace (exec (getState this) (<[this := x2]> h)) with (<[this := x2]> h) by done.
  cbn [x1 x2 ScopeState.isValidated]. rewrite Hguard.
  set (parentStep :=
         match getParentScope program this with
         | Some parentScope =>
             parentState <- getState parentScope ;;
             when (negb (ScopeState.isValidated parentState))
                  (validateRec 1 env program parentScope force)
         | None => ret tt
         end).
  assert (frames this parentStep) as Hparent.
  { subst parentStep.
    destruct (getParentScope program this) as [parentScope|] eqn:Hp; [|apply frames_ret].
    assert (this <> parentScope) as Hne.
    { unfold getParentScope in Hp. case_bool_decide; [|done]. by intros ->; simplify_eq. }
    apply frames_bind; [by apply frames_getState|]. intros parentState.
    apply frames_when, frames_validateRec_root; [done|].
    by eapply getParentScope_parent. }
  assert (forall x, eval parentStep (<[this := x]> h) = eval parentStep h) as Heval.
  { intros x. unfold eval at 1. by rewrite Hparent. }
  assert (forall x, exec parentStep (<[this := x]> h) = <[this := x]> (exec parentStep h))
    as Hexec.
  { intros x. unfold exec at 1. by rewrite Hparent. }
  rewrite (bind_run parentStep _ (<[this := x1]> h)).
  rewrite (bind_run parentStep _ (<[this := x2]> h)).
  rewrite ?Heval, !Hexec.
  assert (forall x g,
            exec (call this (setDiagnostics [])) (<[this := x]> g)
            = <[this := ScopeState.mk (ScopeState.isValidated x) (ScopeState.cache x) []]> g)
    as Hclear.
  { intros x g. unfold exec, call. rewrite scopeState_insert_eq. simpl.
    apply insert_insert_eq. }
  rewrite (bind_run (call this (setDiagnostics [])) _ (<[this := x1]> _)).
  rewrite (bind_run (call this (setDiagnostics [])) _ (<[this := x2]> _)).
  rewrite !Hclear. reflexivity.
Qed.

(** C10.  [invalidate()] leaves the scope not validated and with an empty
    cache, and keeps its diagnostics; [getDiagnostics()] then still reports
    them, those that are not suppressed, before the diagnostics of the files
    of the scope.  The next [validate()] discards them: it runs as if the
    invalidated scope held no diagnostics. *)
Theorem invalidate_keeps_diagnostics (env : Collaborators) (program : Program)
    (this : Scope) (force : bool) (s : ScopeState) (h : Heap) :
  exec invalidate s = ScopeState.mk false ∅ (ScopeState.diagnostics s)
  /\ eval (getDiagnostics env program this) (exec invalidate s)
     = List.filter (fun x => negb (Collaborators.diagnosticIsSuppressed env x))
                   (ScopeState.diagnostics s)
       ++ List.filter (fun x => negb (Collaborators.diagnosticIsSuppressed env x))
                      (fileDiagnosticsOf (loadAllFiles program this))
  /\ validate env program this force (<[this := exec invalidate s]> h)
     = validate env program this force
         (<[this := exec invalidate (exec (setDiagnostics []) s)]> h).
Proof.
  split; [done|]. split.
  - rewrite getDiagnostics_eval, List.filter_app. unfold getOwnFiles.
    by rewrite getAllFiles_after_invalidate.
  - by apply validate_discards.
Qed.

(** ** The scenarios of the specification *)

Example arity_scenario :
  emitted
    (diagnosticDetectFunctionCallsWithWrongParamCount greetFile
       [("greet", [CallableContainer.mk greetCallable sourceScopeHandle])])
    ScopeState.initial
  = [BsDiagnostic.mk (mismatchArgumentCount (CountString "1-2") 3) zeroRange greetFileRef].
Proof. reflexivity. Qed.

Example override_scenario_init :
  emitted
    (diagnosticFindDuplicateFunctionDeclarations emptyProgram childScopeHandle
       [("init", [CallableContainer.mk childInit childScopeHandle;
                  CallableContainer.mk parentInit parentScopeHandle])])
    ScopeState.initial
  = [].
Proof. reflexivity. Qed.

Example duplicate_scenario :
  List.map BsDiagnostic.info
    (emitted
       (diagnosticFindDuplicateFunctionDeclarations emptyProgram sourceScopeHandle
          [("run", [CallableContainer.mk (runIn 1 "pkg:/source/a.brs") sourceScopeHandle;
                    CallableContainer.mk (runIn 2 "pkg:/source/b.brs") sourceScopeHandle])])
       ScopeState.initial)
  = [duplicateFunctionImplementation "run" "source";
     duplicateFunctionImplementation "run" "source"].
Proof. reflexivity. Qed.

(** * Further properties *)

(** ** The cache of [getAllFiles] *)

Lemma getAllFiles_other_slots program this s :
  delete "getAllFiles" (ScopeState.cache (exec (getAllFiles program this) s))
  = delete "getAllFiles" (ScopeState.cache s).
Proof.
  unfold exec, getAllFiles, bind, getCache. simpl.
  destruct (ScopeState.cache s !! "getAllFiles") as [[files|names]|]; simpl;
    first [ done | apply delete_insert_eq ].
Qed.

(** X1.  A second call of [getAllFiles] returns the list of the first call
    and changes nothing.  The first call writes at most the slot of
    [getAllFiles]: the diagnostics, the validation flag and the other slots
    stay.  After [invalidate] the list no longer depends on what the scope
    held before. *)
Theorem getAllFiles_cache (program : Program) (this : Scope) (s s' : ScopeState) :
  getAllFiles program this (exec (getAllFiles program this) s)
  = (eval (getAllFiles program this) s, exec (getAllFiles program this) s)
  /\ ScopeState.diagnostics (exec (getAllFiles program this) s) = ScopeState.diagnostics s
  /\ ScopeState.isValidated (exec (getAllFiles program this) s) = ScopeState.isValidated s
  /\ delete "getAllFiles" (ScopeState.cache (exec (getAllFiles program this) s))
     = delete "getAllFiles" (ScopeState.cache s)
  /\ eval (getAllFiles program this) (exec invalidate s)
     = eval (getAllFiles program this) (exec invalidate s').
Proof.
  split; [apply getAllFiles_cached, getAllFiles_fills|].
  split; [apply getAllFiles_frame|]. split; [apply getAllFiles_frame|].
  split; [apply getAllFiles_other_slots|]. done.
Qed.

Lemma getAllFiles_pushAll program this ds s :
  getAllFiles program this (pushAll ds s)
  = (eval (getAllFiles program this) s, pushAll ds (exec (getAllFiles program this) s)).
Proof.
  unfold eval, exec, getAllFiles, bind, getCache. simpl.
  by destruct (ScopeState.cache s !! "getAllFiles") as [[files|names]|].
Qed.

Lemma getAllFiles_again program this s :
  getAllFiles program this (exec (getAllFiles program this) s)
  = (eval (getAllFiles program this) s, exec (getAllFiles program this) s).
Proof. apply getAllFiles_cached, getAllFiles_fills. Qed.

(** ** Files with a typedef *)

Lemma enumerateFiles_withoutTypedef {V} files (callback : BscFile -> V -> L V) locals s :
  enumerateFiles files callback locals s
  = enumerateFiles (withoutTypedef files) callback locals s.
Proof.
  revert locals s. induction files as [|file files IH]; intros locals s; simpl; [done|].
  destruct (BscFile.hasTypedef file) eqn:E; simpl; [apply IH|].
  rewrite E. unfold bind. destruct (callback file locals s). apply IH.
Qed.

Lemma enumerateFiles_run_all {V} files (callback : BscFile -> V -> L V) locals s :
  Forall (fun file => BscFile.hasTypedef file = false) files ->
  enumerateFiles files callback locals s
  = fold_left (fun acc file => callback file (fst acc) (snd acc)) files (locals, s).
Proof.
  intros Hall. revert locals s.
  induction Hall as [|file files Hfile _ IH]; intros locals s; simpl; [done|].
  rewrite Hfile. unfold bind. destruct (callback file locals s) as [locals' s'] eqn:E.
  rewrite IH. done.
Qed.

Lemma withoutTypedef_Forall files :
  Forall (fun file => BscFile.hasTypedef file = false) (withoutTypedef files).
Proof.
  apply Forall_forall. intros file Hin.
  apply list_elem_of_In, List.filter_In in Hin as [_ Hin]. by apply negb_true_iff.
Qed.

(** X2.  [enumerateAllFiles] and [enumerateOwnFiles] hand the callback the
    files of [getAllFiles] that have no typedef, one after the other in the
    order of the list, threading the state and the variables the callback
    captures; a file with a typedef never reaches the callback, whatever the
    callback does. *)
Theorem enumerate_skips_typedef {V} (program : Program) (this : Scope)
    (callback : BscFile -> V -> L V) (locals : V) (s : ScopeState) :
  enumerateAllFiles program this callback locals s
  = fold_left (fun acc file => callback file (fst acc) (snd acc))
              (withoutTypedef (eval (getAllFiles program this) s))
              (locals, exec (getAllFiles program this) s)
  /\ enumerateOwnFiles program this callback locals s
     = enumerateAllFiles program this callback locals s.
Proof.
  split; [|done]. unfold enumerateAllFiles, bind.
  rewrite (run_eta (getAllFiles program this) s).
  rewrite enumerateFiles_withoutTypedef.
  apply enumerateFiles_run_all, withoutTypedef_Forall.
Qed.

(** ** Own callables *)

Lemma flat_map_withoutTypedef {B} (f : BscFile -> list B) files :
  flat_map (fun file => if BscFile.hasTypedef file then [] else f file) files
  = flat_map f (withoutTypedef files).
Proof.
  induction files as [|file files IH]; simpl; [done|].
  destruct (BscFile.hasTypedef file); simpl; by rewrite IH.
Qed.

Lemma push_callables_fold this callables result :
  fold_left (fun result callable => result ++ [CallableContainer.mk callable this])
            callables result
  = result ++ List.map (fun callable => CallableContainer.mk callable this) callables.
Proof.
  revert result. induction callables as [|c callables IH]; intros result; simpl.
  - by rewrite app_nil_r.
  - by rewrite IH, <- app_assoc.
Qed.

Lemma getOwnCallables_run program this s :
  getOwnCallables program this s
  = (ownContainersOf this (eval (getAllFiles program this) s),
     exec (getAllFiles program this) s).
Proof.
  unfold getOwnCallables, enumerateOwnFiles, getOwnFiles, bind.
  rewrite (run_eta (getAllFiles program this) s).
  rewrite (enumerateFiles_pure
             (fun file result =>
                result ++ List.map (fun callable => CallableContainer.mk callable this)
                                   (BscFile.callables file)))
    by (intros; unfold ret; by rewrite push_callables_fold).
  f_equal. rewrite fold_left_skip_flat_map. simpl.
  apply flat_map_withoutTypedef.
Qed.

(** X3.  [getOwnCallables] returns the callables of the own files that have
    no typedef, file by file and in the order of declaration, each paired
    with this scope; a file with a typedef contributes none.  Its only effect
    on the scope is that of [getOwnFiles]. *)
Theorem getOwnCallables_containers (program : Program) (this : Scope) (s : ScopeState) :
  eval (getOwnCallables program this) s
  = flat_map
      (fun file => List.map (fun callable => CallableContainer.mk callable this)
                            (BscFile.callables file))
      (withoutTypedef (eval (getOwnFiles program this) s))
  /\ Forall (fun container => CallableContainer.scope container = this)
            (eval (getOwnCallables program this) s)
  /\ exec (getOwnCallables program this) s = exec (getOwnFiles program this) s.
Proof.
  unfold eval at 1 3, exec at 1. rewrite getOwnCallables_run. simpl.
  split; [done|]. split; [|done].
  apply Forall_forall. intros container Hin.
  apply list_elem_of_In, in_flat_map in Hin as (file & _ & Hin).
  apply in_map_iff in Hin as (callable & <- & _). done.
Qed.

(** ** Diagnostics of the scope and of its files *)

Lemma filter_Forall {A} (keep : A -> bool) l :
  Forall (fun x => keep x = true) (List.filter keep l).
Proof.
  apply Forall_forall. intros x Hin.
  by apply list_elem_of_In, List.filter_In in Hin as [_ Hin].
Qed.

(** X4.  [getDiagnostics] returns the diagnostics of the scope followed by
    those of the own files without a typedef, file by file, with the
    suppressed ones left out: nothing it returns is suppressed, and it leaves
    the diagnostics and the validation flag of the scope as they are. *)
Theorem getDiagnostics_unsuppressed (env : Collaborators) (program : Program)
    (this : Scope) (s : ScopeState) :
  eval (getDiagnostics env program this) s
  = List.filter (fun x => negb (Collaborators.diagnosticIsSuppressed env x))
      (ScopeState.diagnostics s
       ++ flat_map BscFile.getDiagnostics
                   (withoutTypedef (eval (getOwnFiles program this) s)))
  /\ Forall (fun x => Collaborators.diagnosticIsSuppressed env x = false)
            (eval (getDiagnostics env program this) s)
  /\ ScopeState.diagnostics (exec (getDiagnostics env program this) s)
     = ScopeState.diagnostics s
  /\ ScopeState.isValidated (exec (getDiagnostics env program this) s)
     = ScopeState.isValidated s.
Proof.
  assert (eval (getDiagnostics env program this) s
          = List.filter (fun x => negb (Collaborators.diagnosticIsSuppressed env x))
              (ScopeState.diagnostics s
               ++ flat_map BscFile.getDiagnostics
                           (withoutTypedef (eval (getOwnFiles program this) s)))) as E.
  { rewrite getDiagnostics_eval. unfold fileDiagnosticsOf.
    by rewrite flat_map_withoutTypedef. }
  split; [exact E|]. split.
  - rewrite E. eapply Forall_impl; [apply filter_Forall|].
    intros x Hx. by apply negb_true_iff.
  - assert (exec (getDiagnostics env program this) s = exec (getAllFiles program this) s)
      as ->; [|apply getAllFiles_frame].
    unfold getDiagnostics. rewrite exec_bind. unfold getOwnDiagnostics at 1 2.
    unfold eval at 1, exec at 2. simpl. rewrite exec_bind.
    unfold enumerateOwnFiles, getOwnFiles. rewrite exec_bind.
    unfold exec at 1 2. unfold ret. simpl.
    rewrite (enumerateFiles_pure
               (fun file lists => lists ++ [BscFile.getDiagnostics file])) by done.
    done.
Qed.

(** X5.  [addDiagnostics] appends the given diagnostics, in their order, to
    those of the scope and touches nothing else; adding two lists one after
    the other is adding their concatenation, and what was added shows up in
    [getDiagnostics] unless it is suppressed. *)
Theorem addDiagnostics_appends (env : Collaborators) (program : Program) (this : Scope)
    (ds1 ds2 : list BsDiagnostic) (s : ScopeState) :
  exec (addDiagnostics ds1) s
  = ScopeState.mk (ScopeState.isValidated s) (ScopeState.cache s)
                  (ScopeState.diagnostics s ++ ds1)
  /\ exec (addDiagnostics ds2) (exec (addDiagnostics ds1) s)
     = exec (addDiagnostics (ds1 ++ ds2)) s
  /\ eval (getDiagnostics env program this) (exec (addDiagnostics ds1) s)
     = List.filter (fun x => negb (Collaborators.diagnosticIsSuppressed env x))
         (ScopeState.diagnostics s ++ ds1
          ++ flat_map BscFile.getDiagnostics
                      (withoutTypedef (eval (getOwnFiles program this) s))).
Proof.
  assert (forall ds s0, exec (addDiagnostics ds) s0 = pushAll ds s0) as Hrun.
  { intros ds s0. unfold exec. by rewrite addDiagnostics_run. }
  rewrite !Hrun. split; [done|]. split; [by rewrite pushAll_app|].
  rewrite getDiagnostics_eval. unfold fileDiagnosticsOf.
  rewrite flat_map_withoutTypedef. simpl. rewrite <- app_assoc.
  unfold getOwnFiles, eval. by rewrite getAllFiles_pushAll.
Qed.

(** ** All callables *)

Lemma call_run {A} this (m : L A) h :
  call this m h = (eval m (scopeState h this), <[this := exec m (scopeState h this)]> h).
Proof. unfold call, eval, exec. by destruct (m (scopeState h this)). Qed.

Lemma getOwnCallables_eval program this s :
  eval (getOwnCallables program this) s
  = ownContainersOf this (eval (getAllFiles program this) s).
Proof. unfold eval at 1. by rewrite getOwnCallables_run. Qed.

Lemma getOwnCallables_exec program this s :
  exec (getOwnCallables program this) s = exec (getAllFiles program this) s.
Proof. unfold exec at 1. by rewrite getOwnCallables_run. Qed.

Lemma getAllCallables_run program this h :
  getAllCallables program this h
  = (allContainersOf program h this,
     match getParentScope program this with
     | Some parentScope => fillFiles program parentScope (fillFiles program this h)
     | None => fillFiles program this h
     end).
Proof.
  unfold getAllCallables, allContainersOf. cbn [getAllCallablesRec].
  destruct (getParentScope program this) as [parentScope|] eqn:Hp.
  - rewrite (getParentScope_parent _ _ _ Hp).
    assert (this <> parentScope) as Hne.
    { unfold getParentScope in Hp. case_bool_decide; [|done]. by intros ->; simplify_eq. }
    unfold bind. rewrite !call_run, !getOwnCallables_eval, !getOwnCallables_exec.
    unfold filesOf, fillFiles. by rewrite scopeState_insert_ne by done.
  - unfold bind. rewrite call_run, getOwnCallables_eval, getOwnCallables_exec.
    by rewrite app_nil_r.
Qed.

(** Filling the cache of a scope changes neither the diagnostics, nor the
    validation flag, nor the files of any scope. *)
Lemma fillFiles_quiet program h this q :
  ScopeState.diagnostics (scopeState (fillFiles program this h) q)
  = ScopeState.diagnostics (scopeState h q)
  /\ ScopeState.isValidated (scopeState (fillFiles program this h) q)
     = ScopeState.isValidated (scopeState h q)
  /\ filesOf program (fillFiles program this h) q = filesOf program h q.
Proof.
  unfold filesOf, fillFiles. destruct (decide (this = q)) as [<-|Hne].
  - rewrite scopeState_insert_eq.
    split; [apply getAllFiles_frame|]. split; [apply getAllFiles_frame|].
    unfold eval at 1. by rewrite getAllFiles_again.
  - by rewrite scopeState_insert_ne.
Qed.

(** X6.  [getAllCallables] returns the callables of the own files of the
    scope, each paired with the scope, followed by those of the files of
    the global scope, each paired with the global scope; for the global
    scope itself there is nothing after its own.  It changes the
    diagnostics, the validation flag and the files of no scope. *)
Theorem getAllCallables_own_then_global (program : Program) (this : Scope) (h : Heap) :
  eval (getAllCallables program this) h
  = ownContainersOf this (filesOf program h this)
    ++ (if bool_decide (Program.globalScope program = this) then []
        else ownContainersOf (Program.globalScope program)
                             (filesOf program h (Program.globalScope program)))
  /\ forall q,
       ScopeState.diagnostics (scopeState (exec (getAllCallables program this) h) q)
       = ScopeState.diagnostics (scopeState h q)
       /\ ScopeState.isValidated (scopeState (exec (getAllCallables program this) h) q)
          = ScopeState.isValidated (scopeState h q)
       /\ filesOf program (exec (getAllCallables program this) h) q = filesOf program h q.
Proof.
  unfold eval at 1, exec. rewrite getAllCallables_run. simpl. split.
  - unfold allContainersOf, getParentScope.
    destruct (bool_decide_reflect (Program.globalScope program = this)) as [E|E].
    + by rewrite bool_decide_eq_false_2 by (intros H; by apply H).
    + by rewrite bool_decide_eq_true_2.
  - intros q. destruct (getParentScope program this) as [parentScope|].
    + destruct (fillFiles_quiet program (fillFiles program this h) parentScope q)
        as (D & V & F).
      destruct (fillFiles_quiet program h this q) as (D' & V' & F').
      by rewrite D, V, F, D', V', F'.
    + apply fillFiles_quiet.
Qed.

(** ** Callables by name *)

Lemma find_app_first {A} (f : A -> bool) l1 l2 :
  List.find f (l1 ++ l2)
  = match List.find f l1 with Some x => Some x | None => List.find f l2 end.
Proof. induction l1 as [|x l1 IH]; simpl; [done|]. by destruct (f x). Qed.

Lemma getCallableByName_eval getName program this name h :
  eval (getCallableByName getName program this name) h
  = CallableContainer.callable
      <$> List.find (isNamed getName name) (allContainersOf program h this).
Proof.
  unfold getCallableByName. rewrite eval_bind.
  unfold eval at 2. rewrite getAllCallables_run. simpl.
  reflexivity.
Qed.

(** X7.  [getCallableByName] returns the first callable of the own files, in
    the order of [getOwnCallables], whose name is the requested one up to the
    case of letters, and looks at the callables of the global scope only when
    the scope has none of that name.  The case of the requested name plays no
    part, and a callable that is returned bears the requested name. *)
Theorem getCallableByName_closest (getName : Callable -> ParseMode -> string)
    (program : Program) (this : Scope) (name : string) (h : Heap) :
  eval (getCallableByName getName program this name) h
  = CallableContainer.callable
      <$> match List.find (isNamed getName name)
                          (ownContainersOf this (filesOf program h this)) with
          | Some own => Some own
          | None =>
              match getParentScope program this with
              | Some parentScope =>
                  List.find (isNamed getName name)
                            (ownContainersOf parentScope (filesOf program h parentScope))
              | None => None
              end
          end
  /\ eval (getCallableByName getName program this (toLowerCase name)) h
     = eval (getCallableByName getName program this name) h
  /\ from_option
       (fun callable =>
          bool_decide (toLowerCase (getName callable BrighterScript) = toLowerCase name))
       true
       (eval (getCallableByName getName program this name) h)
     = true.
Proof.
  rewrite !getCallableByName_eval. split; [|split].
  - unfold allContainersOf. rewrite find_app_first.
    destruct (List.find _ (ownContainersOf this _)); [done|].
    by destruct (getParentScope program this).
  - f_equal. unfold isNamed. by rewrite toLowerCase_idemp.
  - destruct (List.find _ _) as [container|] eqn:E; simpl; [|done].
    by apply List.find_some in E as [_ E].
Qed.

(** ** The stages of [validate] *)

Lemma getAllFiles_eval_pushAll program this ds s :
  eval (getAllFiles program this) (pushAll ds s) = eval (getAllFiles program this) s.
Proof. unfold eval at 1. by rewrite getAllFiles_pushAll. Qed.

Lemma getAllFiles_exec_pushAll program this ds s :
  exec (getAllFiles program this) (pushAll ds s)
  = pushAll ds (exec (getAllFiles program this) s).
Proof. unfold exec at 1. by rewrite getAllFiles_pushAll. Qed.

Lemma getAllFiles_eval_again program this s :
  eval (getAllFiles program this) (exec (getAllFiles program this) s)
  = eval (getAllFiles program this) s.
Proof. unfold eval at 1. by rewrite getAllFiles_again. Qed.

Lemma getAllFiles_exec_again program this s :
  exec (getAllFiles program this) (exec (getAllFiles program this) s)
  = exec (getAllFiles program this) s.
Proof. unfold exec at 1. by rewrite getAllFiles_again. Qed.

(** [getAllFiles] looks at the cache only. *)
Lemma getAllFiles_cache_only program this s s' :
  ScopeState.cache s = ScopeState.cache s' ->
  eval (getAllFiles program this) s = eval (getAllFiles program this) s'
  /\ ScopeState.cache (exec (getAllFiles program this) s)
     = ScopeState.cache (exec (getAllFiles program this) s').
Proof.
  intros E. unfold eval, exec, getAllFiles, bind, getCache. simpl. rewrite E.
  by destruct (ScopeState.cache s' !! "getAllFiles") as [[files|names]|].
Qed.

Lemma validateClasses_run env program this s :
  validateClasses env program this s
  = (tt, pushAll (Collaborators.classValidatorDiagnostics env this
                    (eval (getAllFiles program this) s))
                 (exec (getAllFiles program this) s)).
Proof.
  unfold validateClasses, bind. rewrite (run_eta (getAllFiles program this) s).
  apply addDiagnostics_run.
Qed.

(** The stages that [validate] runs on the scope once the map is built. *)
Lemma validate_stages_run env program this map s :
  (files <- getOwnFiles program this ;;
   addDiagnostics
     (Collaborators.pluginsEmit env "beforeScopeValidate" this files map) ;;;
   diagnosticFindDuplicateFunctionDeclarations program this map ;;;
   diagnosticValidateScriptImportPaths program this ;;;
   validateClasses env program this ;;;
   enumerateOwnFiles program this
     (fun file (_ : unit) => validateFile env program this map file) tt ;;;
   addDiagnostics
     (Collaborators.pluginsEmit env "afterScopeValidate" this files map) ;;;
   setIsValidated true) s
  = (tt, ScopeState.mk true
           (ScopeState.cache (exec (getAllFiles program this) s))
           (ScopeState.diagnostics s
            ++ expectedValidateDiagnostics env program this
                 (eval (getAllFiles program this) s) map)).
Proof.
  unfold getOwnFiles at 1.
  rewrite (bind_run (getAllFiles program this)).
  set (files := eval (getAllFiles program this) s).
  set (s1 := exec (getAllFiles program this) s).
  assert (eval (getAllFiles program this) s1 = files) as Hfiles
    by apply getAllFiles_eval_again.
  assert (exec (getAllFiles program this) s1 = s1) as Hfill
    by apply getAllFiles_exec_again.
  unfold bind.
  rewrite addDiagnostics_run, duplicates_run, import_paths_run.
  unfold getOwnFiles.
  rewrite !getAllFiles_eval_pushAll, !getAllFiles_exec_pushAll, Hfiles, Hfill.
  rewrite validateClasses_run.
  rewrite !getAllFiles_eval_pushAll, !getAllFiles_exec_pushAll, Hfiles, Hfill.
  rewrite validateFiles_run. unfold getOwnFiles.
  rewrite !getAllFiles_eval_pushAll, !getAllFiles_exec_pushAll, Hfiles, Hfill.
  rewrite addDiagnostics_run, !pushAll_app.
  unfold setIsValidated, pushAll, expectedValidateDiagnostics. simpl.
  subst s1. by destruct (getAllFiles_frame program this s) as [-> _].
Qed.

(** ** What [validate] leaves behind *)

Lemma getParentScope_ne program this parentScope :
  getParentScope program this = Some parentScope -> this <> parentScope.
Proof.
  unfold getParentScope. case_bool_decide; [|done]. by intros [= <-] ->.
Qed.

Lemma filesOf_insert_cache program h this x q :
  ScopeState.cache x = ScopeState.cache (scopeState h this) ->
  filesOf program (<[this := x]> h) q = filesOf program h q.
Proof.
  intros E. unfold filesOf. destruct (decide (this = q)) as [<-|Hne].
  - rewrite scopeState_insert_eq. by apply getAllFiles_cache_only.
  - by rewrite scopeState_insert_ne.
Qed.

Lemma allContainersOf_files program h h' this :
  (forall q, filesOf program h' q = filesOf program h q) ->
  allContainersOf program h' this = allContainersOf program h this.
Proof.
  intros E. unfold allContainersOf. rewrite E.
  destruct (getParentScope program this); by rewrite ?E.
Qed.

(** [validate] on a scope that has to be validated and whose parent, if it
    has one, is validated already. *)
Lemma validateRec_ready_run fuel env program this force h :
  ScopeState.isValidated (scopeState h this) && negb force = false ->
  match getParentScope program this with
  | Some parentScope => ScopeState.isValidated (scopeState h parentScope) = true
  | None => True
  end ->
  validateRec (S fuel) env program this force h
  = (tt, <[this := validatedState env program h this]>
           match getParentScope program this with
           | Some parentScope => fillFiles program parentScope h
           | None => h
           end).
Proof.
  intros Hguard Hparent. cbn [validateRec].
  rewrite bind_run.
  change (eval (getState this) h) with (scopeState h this).
  change (exec (getState this) h) with h.
  rewrite Hguard, bind_run.
  set (parentStep :=
         match getParentScope program this with
         | Some parentScope =>
             parentState <- getState parentScope ;;
             when (negb (ScopeState.isValidated parentState))
                  (validateRec fuel env program parentScope force)
         | None => ret tt
         end).
  assert (exec parentStep h = h) as ->.
  { subst parentStep. destruct (getParentScope program this) as [parentScope|]; [|done].
    unfold exec. rewrite bind_run.
    change (eval (getState parentScope) h) with (scopeState h parentScope).
    by rewrite Hparent. }
  clear parentStep.
  set (cleared := ScopeState.mk (ScopeState.isValidated (scopeState h this))
                                (ScopeState.cache (scopeState h this)) []).
  rewrite bind_run.
  assert (exec (call this (setDiagnostics [])) h = <[this := cleared]> h) as ->.
  { unfold exec. by rewrite call_run. }
  set (h1 := <[this := cleared]> h).
  assert (forall q, filesOf program h1 q = filesOf program h q) as Hfiles.
  { intros q. by apply filesOf_insert_cache. }
  rewrite bind_run.
  assert (eval (getAllCallables program this) h1 = allContainersOf program h this) as ->.
  { unfold eval. rewrite getAllCallables_run. by apply allContainersOf_files. }
  assert (exec (getAllCallables program this) h1
          = match getParentScope program this with
            | Some parentScope => fillFiles program parentScope (fillFiles program this h1)
            | None => fillFiles program this h1
            end) as ->.
  { unfold exec. by rewrite getAllCallables_run. }
  cbn zeta.
  set (map := Collaborators.getCallableContainersByLowerName env _).
  rewrite call_run. unfold eval, exec. rewrite validate_stages_run. cbn [fst snd].
  f_equal.
  assert (scopeState (fillFiles program this h1) this
          = exec (getAllFiles program this) cleared) as Hthis.
  { unfold fillFiles, h1. by rewrite !scopeState_insert_eq. }
  destruct (getAllFiles_cache_only program this cleared (scopeState h this))
    as [Hsame Hcache]; [done|].
  destruct (getParentScope program this) as [parentScope|] eqn:Hp.
  - pose proof (getParentScope_ne _ _ _ Hp) as Hne.
    assert (scopeState (fillFiles program parentScope (fillFiles program this h1)) this
            = exec (getAllFiles program this) cleared) as ->.
    { unfold fillFiles at 1. rewrite scopeState_insert_ne by done. exact Hthis. }
    rewrite getAllFiles_exec_again, getAllFiles_eval_again.
    destruct (getAllFiles_frame program this cleared) as [-> _].
    unfold validatedState, filesOf. rewrite Hcache, Hsame. cbn [cleared ScopeState.diagnostics app].
    unfold fillFiles, h1.
    rewrite (scopeState_insert_ne _ this parentScope) by done.
    rewrite (scopeState_insert_ne _ this parentScope) by done.
    rewrite (insert_insert_ne _ this parentScope) by done.
    rewrite !insert_insert_eq.
    by rewrite (insert_insert_ne _ this parentScope) by done.
  - rewrite Hthis.
    rewrite getAllFiles_exec_again, getAllFiles_eval_again.
    destruct (getAllFiles_frame program this cleared) as [-> _].
    unfold validatedState, filesOf. rewrite Hcache, Hsame. cbn [cleared ScopeState.diagnostics app].
    unfold fillFiles, h1. by rewrite !insert_insert_eq.
Qed.

Lemma validatedState_files env program h h' this :
  scopeState h' this = scopeState h this ->
  (forall q, filesOf program h' q = filesOf program h q) ->
  validatedState env program h' this = validatedState env program h this.
Proof.
  intros E Hfiles. unfold validatedState.
  by rewrite E, Hfiles, (allContainersOf_files _ h h').
Qed.

Lemma filesOf_validatedState env program h this q :
  filesOf program (<[this := validatedState env program h this]> h) q
  = filesOf program h q.
Proof.
  unfold filesOf. destruct (decide (this = q)) as [<-|Hne].
  - rewrite scopeState_insert_eq.
    destruct (getAllFiles_cache_only program this (validatedState env program h this)
                (exec (getAllFiles program this) (scopeState h this))) as [-> _]; [done|].
    apply getAllFiles_eval_again.
  - by rewrite scopeState_insert_ne.
Qed.

(** Validating the parent first touches the parent only, and keeps the
    files of every scope. *)
Lemma parentValidated_spec env program h this :
  scopeState (parentValidated env program h this) this = scopeState h this
  /\ match getParentScope program this with
     | Some parentScope =>
         ScopeState.isValidated
           (scopeState (parentValidated env program h this) parentScope) = true
     | None => True
     end
  /\ (forall q, filesOf program (parentValidated env program h this) q
                = filesOf program h q)
  /\ (forall q, getParentScope program this <> Some q ->
                scopeState (parentValidated env program h this) q = scopeState h q).
Proof.
  unfold parentValidated.
  destruct (getParentScope program this) as [parentScope|] eqn:Hp; [|done].
  pose proof (getParentScope_ne _ _ _ Hp) as Hne.
  destruct (ScopeState.isValidated (scopeState h parentScope)) eqn:Hv; [done|].
  split; [by rewrite scopeState_insert_ne|].
  split; [by rewrite scopeState_insert_eq|].
  split; [intros q; apply filesOf_validatedState|].
  intros q Hq. rewrite scopeState_insert_ne; [done|]. by intros ->.
Qed.

(** [validate] on a scope that has to be validated: the parent first, if it
    is not validated, then the scope itself. *)
Lemma validate_run env program this force h :
  ScopeState.isValidated (scopeState h this) && negb force = false ->
  validate env program this force h
  = (tt, <[this := validatedState env program h this]>
           match getParentScope program this with
           | Some parentScope =>
               fillFiles program parentScope (parentValidated env program h this)
           | None => h
           end).
Proof.
  intros Hguard.
  destruct (parentValidated_spec env program h this) as (Hthis & Hparent & Hfiles & _).
  transitivity (validate env program this force (parentValidated env program h this)).
  - unfold validate. cbn [validateRec].
    rewrite !(bind_run (getState this)).
    change (eval (getState this) h) with (scopeState h this).
    change (eval (getState this) (parentValidated env program h this))
      with (scopeState (parentValidated env program h this) this).
    change (exec (getState this) h) with h.
    change (exec (getState this) (parentValidated env program h this))
      with (parentValidated env program h this).
    rewrite Hthis, Hguard.
    set (parentStep :=
           match getParentScope program this with
           | Some parentScope =>
               parentState <- getState parentScope ;;
               when (negb (ScopeState.isValidated parentState))
                    (validateRec 1 env program parentScope force)
           | None => ret tt
           end).
    rewrite (bind_run parentStep _ h).
    rewrite (bind_run parentStep _ (parentValidated env program h this)).
    assert (exec parentStep h = parentValidated env program h this) as ->.
    { subst parentStep. unfold parentValidated.
      destruct (getParentScope program this) as [parentScope|] eqn:Hp; [|done].
      unfold exec. rewrite bind_run.
      change (eval (getState parentScope) h) with (scopeState h parentScope).
      change (exec (getState parentScope) h) with h.
      destruct (ScopeState.isValidated (scopeState h parentScope)) eqn:Hv; [done|].
      cbn [negb when]. rewrite validateRec_ready_run.
      + by rewrite (getParentScope_parent _ _ _ Hp).
      + by rewrite Hv.
      + by rewrite (getParentScope_parent _ _ _ Hp). }
    assert (exec parentStep (parentValidated env program h this)
            = parentValidated env program h this) as ->; [|done].
    subst parentStep.
    destruct (getParentScope program this) as [parentScope|] eqn:Hp; [|done].
    unfold exec. rewrite bind_run.
    change (eval (getState parentScope) (parentValidated env program h this))
      with (scopeState (parentValidated env program h this) parentScope).
    by rewrite Hparent.
  - unfold validate. rewrite validateRec_ready_run.
    + rewrite (validatedState_files env program h) by done.
      destruct (getParentScope program this) eqn:Hp; [done|].
      unfold parentValidated. by rewrite Hp.
    + by rewrite Hthis.
    + exact Hparent.
Qed.

Lemma validate_scopeState env program this force h :
  ScopeState.isValidated (scopeState h this) && negb force = false ->
  scopeState (exec (validate env program this force) h) this
  = validatedState env program h this.
Proof.
  intros Hguard. unfold exec. rewrite validate_run by done. cbn [snd].
  by rewrite scopeState_insert_eq.
Qed.

(** X8.  A [validate] that runs (the scope is not validated, or [force] is
    set) leaves as the diagnostics of the scope exactly those of its stages,
    in the order of the stages: the handlers of [beforeScopeValidate],
    override and duplicate detection over the map, the import check, the
    class validator, the checks on each own file without a typedef, the
    handlers of [afterScopeValidate].  The map is built from the callables
    of the scope followed by those of its parent, sorted.  Whatever the
    scope held as diagnostics before is gone. *)
Theorem validate_diagnostics (env : Collaborators) (program : Program) (this : Scope)
    (force : bool) (h : Heap) :
  ScopeState.isValidated (scopeState h this) && negb force = false ->
  ScopeState.diagnostics (scopeState (exec (validate env program this force) h) this)
  = expectedValidateDiagnostics env program this (filesOf program h this)
      (mapOf env (allContainersOf program h this)).
Proof. intros Hguard. by rewrite validate_scopeState. Qed.

Lemma validate_diagnostics_witness :
  ScopeState.isValidated (scopeState ∅ sourceScopeHandle) && negb false = false
  /\ ScopeState.diagnostics
       (scopeState
          (exec (validate plainCollaborators importProgram sourceScopeHandle false) ∅)
          sourceScopeHandle)
     = expectedValidateDiagnostics plainCollaborators importProgram sourceScopeHandle
         (filesOf importProgram ∅ sourceScopeHandle)
         (mapOf plainCollaborators (allContainersOf importProgram ∅ sourceScopeHandle)).
Proof.
  split; [reflexivity|].
  apply (validate_diagnostics plainCollaborators importProgram sourceScopeHandle false ∅).
  reflexivity.
Defined.

Lemma validate_skipped env program this force h :
  ScopeState.isValidated (scopeState h this) && negb force = true ->
  validate env program this force h = (tt, h).
Proof.
  intros Hguard. unfold validate. cbn [validateRec].
  unfold bind at 1. unfold getState. by rewrite Hguard.
Qed.

Lemma filesOf_fillFiles program h this q :
  filesOf program (fillFiles program this h) q = filesOf program h q.
Proof. apply fillFiles_quiet. Qed.

Lemma validate_filesOf env program this force h q :
  filesOf program (exec (validate env program this force) h) q = filesOf program h q.
Proof.
  destruct (ScopeState.isValidated (scopeState h this) && negb force) eqn:Hguard.
  { unfold exec. by rewrite validate_skipped. }
  unfold exec. rewrite validate_run by done. cbn [snd].
  destruct (parentValidated_spec env program h this) as (Hthis & _ & Hfiles & _).
  destruct (getParentScope program this) as [parentScope|] eqn:Hp.
  - set (g := fillFiles program parentScope (parentValidated env program h this)).
    assert (validatedState env program g this = validatedState env program h this) as <-.
    { apply validatedState_files.
      - unfold g, fillFiles.
        rewrite scopeState_insert_ne by (by apply not_eq_sym, (getParentScope_ne program)).
        exact Hthis.
      - intros q'. unfold g. by rewrite filesOf_fillFiles. }
    rewrite filesOf_validatedState. unfold g. by rewrite filesOf_fillFiles.
  - apply filesOf_validatedState.
Qed.

(** X9.  [validate] keeps the files of every scope (what [getAllFiles]
    returns for it), and writes to the fields of no scope other than the one
    validated and the global scope. *)
Theorem validate_keeps_files (env : Collaborators) (program : Program) (this : Scope)
    (force : bool) (h : Heap) (q : Scope) :
  filesOf program (exec (validate env program this force) h) q = filesOf program h q
  /\ (q = this \/ q = Program.globalScope program
      \/ scopeState (exec (validate env program this force) h) q = scopeState h q).
Proof.
  split; [apply validate_filesOf|].
  destruct (ScopeState.isValidated (scopeState h this) && negb force) eqn:Hguard.
  { unfold exec. rewrite validate_skipped by done. auto. }
  unfold exec. rewrite validate_run by done. cbn [snd].
  destruct (parentValidated_spec env program h this) as (_ & _ & _ & Hothers).
  destruct (decide (q = this)) as [->|Hq]; [by left|]. right.
  rewrite scopeState_insert_ne by done.
  destruct (getParentScope program this) as [parentScope|] eqn:Hp; [|by right].
  destruct (decide (q = parentScope)) as [->|Hq'].
  - left. unfold getParentScope in Hp. by case_bool_decide; simplify_eq.
  - right. unfold fillFiles. rewrite scopeState_insert_ne by done.
    apply Hothers. by intros [= ->].
Qed.



(** ** Validating again *)

Lemma validatedState_cache env program h this :
  ScopeState.cache (exec (getAllFiles program this) (validatedState env program h this))
  = ScopeState.cache (validatedState env program h this).
Proof.
  destruct (getAllFiles_cache_only program this (validatedState env program h this)
              (exec (getAllFiles program this) (scopeState h this))) as [_ ->]; [done|].
  by rewrite getAllFiles_exec_again.
Qed.

(** X11.  After a [validate] that ran, a forced [validate] changes nothing:
    neither the fields of the scope (its diagnostics are computed again and
    come out the same) nor those of any other scope. *)
Theorem validate_again_forced (env : Collaborators) (program : Program) (this : Scope)
    (force : bool) (h : Heap) :
  ScopeState.isValidated (scopeState h this) && negb force = false ->
  exec (validate env program this true) (exec (validate env program this force) h)
  = exec (validate env program this force) h.
Proof.
  intros Hguard.
  set (h' := exec (validate env program this force) h).
  assert (forall q, filesOf program h' q = filesOf program h q) as Hfiles
    by (intros q; apply validate_filesOf).
  assert (scopeState h' this = validatedState env program h this) as Hthis.
  { unfold h', exec. rewrite validate_run by done. cbn [snd].
    by rewrite scopeState_insert_eq. }
  assert (h' !! this = Some (validatedState env program h this)) as Hlookup.
  { unfold h', exec. rewrite validate_run by done. cbn [snd].
    by rewrite lookup_insert_eq. }
  assert (validatedState env program h' this = validatedState env program h this) as Hsame.
  { unfold validatedState at 1.
    rewrite Hthis, validatedState_cache, !Hfiles, (allContainersOf_files _ h h') by done.
    done. }
  unfold exec at 1. rewrite validate_run by apply andb_false_r. cbn [snd].
  rewrite Hsame.
  destruct (getParentScope program this) as [parentScope|] eqn:Hp.
  - pose proof (getParentScope_ne _ _ _ Hp) as Hne.
    assert (exists y, h' !! parentScope = Some (exec (getAllFiles program parentScope) y)
                      /\ ScopeState.isValidated
                           (exec (getAllFiles program parentScope) y) = true)
      as (y & Hparent & Hvalidated).
    { exists (scopeState (parentValidated env program h this) parentScope).
      unfold h', exec at 1 3. rewrite validate_run by done. cbn [snd]. rewrite Hp.
      rewrite lookup_insert_ne by done. unfold fillFiles.
      rewrite lookup_insert_eq. split; [done|].
      change (ScopeState.isValidated
                (exec (getAllFiles program parentScope)
                   (scopeState (parentValidated env program h this) parentScope)) = true).
      destruct (getAllFiles_frame program parentScope
                  (scopeState (parentValidated env program h this) parentScope))
        as [_ ->].
      destruct (parentValidated_spec env program h this) as (_ & Hv & _).
      by rewrite Hp in Hv. }
    assert (scopeState h' parentScope = exec (getAllFiles program parentScope) y)
      as Hstate by (unfold scopeState; by rewrite Hparent).
    assert (parentValidated env program h' this = h') as ->.
    { unfold parentValidated. by rewrite Hp, Hstate, Hvalidated. }
    unfold fillFiles. rewrite Hstate, getAllFiles_exec_again.
    rewrite (insert_id h' parentScope) by done.
    by apply insert_id.
  - by apply insert_id.
Qed.

Lemma validate_again_forced_witness :
  ScopeState.isValidated (scopeState ∅ sourceScopeHandle) && negb false = false
  /\ exec (validate plainCollaborators importProgram sourceScopeHandle true)
          (exec (validate plainCollaborators importProgram sourceScopeHandle false) ∅)
     = exec (validate plainCollaborators importProgram sourceScopeHandle false) ∅.
Proof.
  split; [reflexivity|].
  apply (validate_again_forced plainCollaborators importProgram sourceScopeHandle false ∅).
  reflexivity.
Defined.

(** X12.  [validate], [invalidate], [validate]: when the files the scope
    held at the start are those its dependencies resolve to, the second
    validation, which has to load them again, ends with the same
    diagnostics as the first, and every scope still has its files. *)
Theorem validate_invalidate_validate (env : Collaborators) (program : Program)
    (this : Scope) (force force' : bool) (h : Heap) :
  ScopeState.isValidated (scopeState h this) && negb force = false ->
  filesOf program h this = loadAllFiles program this ->
  ScopeState.diagnostics
    (scopeState
       (exec (validate env program this force')
          (exec (call this invalidate) (exec (validate env program this force) h)))
       this)
  = ScopeState.diagnostics (scopeState (exec (validate env program this force) h) this)
  /\ forall q,
       filesOf program
         (exec (validate env program this force')
            (exec (call this invalidate) (exec (validate env program this force) h)))
         q
       = filesOf program h q.
Proof.
  intros Hguard Hloaded.
  set (h1 := exec (validate env program this force) h).
  set (h2 := exec (call this invalidate) h1).
  assert (scopeState h2 this = exec invalidate (scopeState h1 this)) as Hthis
    by apply scopeState_call.
  assert (forall q, filesOf program h2 q = filesOf program h q) as Hfiles.
  { intros q. destruct (decide (this = q)) as [<-|Hne].
    - unfold filesOf at 1. by rewrite Hthis, getAllFiles_after_invalidate.
    - unfold filesOf at 1, h2, exec at 1. rewrite call_run. cbn [snd].
      rewrite scopeState_insert_ne by done. apply validate_filesOf. }
  split.
  - rewrite validate_scopeState by (by rewrite Hthis).
    unfold h1. rewrite validate_scopeState by done.
    unfold validatedState. cbn [ScopeState.diagnostics].
    by rewrite Hfiles, (allContainersOf_files _ h h2).
  - intros q. by rewrite validate_filesOf.
Qed.

Lemma validate_invalidate_validate_witness :
  ScopeState.isValidated (scopeState ∅ sourceScopeHandle) && negb false = false
  /\ filesOf importProgram ∅ sourceScopeHandle
     = loadAllFiles importProgram sourceScopeHandle
  /\ ScopeState.diagnostics
       (scopeState
          (exec (validate plainCollaborators importProgram sourceScopeHandle false)
             (exec (call sourceScopeHandle invalidate)
                (exec (validate plainCollaborators importProgram sourceScopeHandle false)
                      ∅)))
          sourceScopeHandle)
     = ScopeState.diagnostics
         (scopeState
            (exec (validate plainCollaborators importProgram sourceScopeHandle false) ∅)
            sourceScopeHandle).
Proof.
  split; [reflexivity|]. split; [reflexivity|].
  apply (validate_invalidate_validate plainCollaborators importProgram sourceScopeHandle
           false false ∅); reflexivity.
Defined.

(** X13.  [onDependenciesChanged], whatever the key, leaves the scope not
    validated, so that the next [validate], forced or not, runs: it loads
    the files of the scope again and leaves the diagnostics of the stages
    computed from the files loaded, with the callables of the parent taken
    from the files the parent holds. *)
Theorem dependency_change_revalidates (env : Collaborators) (program : Program)
    (this : Scope) (key : string) (force : bool) (h : Heap) :
  ScopeState.isValidated
    (scopeState (exec (call this (onDependenciesChanged key)) h) this) = false
  /\ ScopeState.diagnostics
       (scopeState
          (exec (validate env program this force)
                (exec (call this (onDependenciesChanged key)) h))
          this)
     = expectedValidateDiagnostics env program this (loadAllFiles program this)
         (mapOf env
            (ownContainersOf this (loadAllFiles program this)
             ++ match getParentScope program this with
                | Some parentScope =>
                    ownContainersOf parentScope (filesOf program h parentScope)
                | None => []
                end)).
Proof.
  set (h1 := exec (call this (onDependenciesChanged key)) h).
  assert (scopeState h1 this = exec invalidate (scopeState h this)) as Hthis
    by apply scopeState_call.
  split; [by rewrite Hthis|].
  rewrite validate_scopeState by (by rewrite Hthis).
  unfold validatedState, allContainersOf. cbn [ScopeState.diagnostics].
  assert (filesOf program h1 this = loadAllFiles program this) as ->.
  { unfold filesOf. by rewrite Hthis, getAllFiles_after_invalidate. }
  destruct (getParentScope program this) as [parentScope|] eqn:Hp; [|done].
  assert (filesOf program h1 parentScope = filesOf program h parentScope) as ->; [|done].
  unfold filesOf, h1, exec. rewrite call_run. cbn [snd].
  by rewrite scopeState_insert_ne by (by apply (getParentScope_ne program)).
Qed.

(** ** Duplicate and override detection, revisited *)

Lemma expectedOverride_no_own program this entry :
  ownCallablesOf program this entry.2 = [] ->
  expectedOverrideDiagnostics program this entry = [].
Proof.
  intros E. unfold expectedOverrideDiagnostics. rewrite E.
  destruct (last _); [|done]. by destruct (bool_decide (entry.1 = "init")).
Qed.

Lemma expectedDuplicate_no_own program this entry :
  ownCallablesOf program this entry.2 = [] ->
  expectedDuplicateDiagnostics program this entry = [].
Proof. intros E. unfold expectedDuplicateDiagnostics. by rewrite E. Qed.

Lemma flat_map_all_nil {A B} (f : A -> list B) l :
  (forall x, f x = []) -> flat_map f l = [].
Proof. intros E. induction l as [|x l IH]; simpl; [done|]. by rewrite E, IH. Qed.

(** X14.  On the global scope, duplicate and override detection reports
    nothing, whatever the map holds: a container of the global scope is
    never an own callable, so that two declarations of one function in the
    files of the global scope go unreported. *)
Theorem duplicates_global_scope (program : Program) (map : CallableContainerMap)
    (s : ScopeState) :
  emitted (diagnosticFindDuplicateFunctionDeclarations program
             (Program.globalScope program) map) s
  = []
  /\ exec (diagnosticFindDuplicateFunctionDeclarations program
             (Program.globalScope program) map) s
     = s.
Proof.
  assert (flat_map
            (fun entry =>
               expectedOverrideDiagnostics program (Program.globalScope program) entry
               ++ expectedDuplicateDiagnostics program (Program.globalScope program) entry)
            map = []) as Hnone.
  { apply flat_map_all_nil. intros entry.
    by rewrite expectedOverride_no_own, expectedDuplicate_no_own
      by apply ownCallablesOf_global. }
  assert (exec (diagnosticFindDuplicateFunctionDeclarations program
                  (Program.globalScope program) map) s = s) as Hrun.
  { unfold exec. rewrite duplicates_run, Hnone. apply pushAll_nil. }
  split; [|exact Hrun].
  apply emitted_pushAll. by rewrite Hrun, pushAll_nil.
Qed.

Lemma allContainersOf_scopes program h this :
  Forall (fun c => CallableContainer.scope c = this
                   \/ CallableContainer.scope c = Program.globalScope program)
         (allContainersOf program h this).
Proof.
  unfold allContainersOf, ownContainersOf. apply Forall_app. split.
  - apply Forall_forall. intros c Hin.
    apply list_elem_of_In, in_flat_map in Hin as (file & _ & Hin).
    apply in_map_iff in Hin as (callable & <- & _). by left.
  - destruct (getParentScope program this) as [parentScope|] eqn:Hp; [|done].
    apply Forall_forall. intros c Hin.
    apply list_elem_of_In, in_flat_map in Hin as (file & _ & Hin).
    apply in_map_iff in Hin as (callable & <- & _). right. simpl.
    unfold getParentScope in Hp. by case_bool_decide; simplify_eq.
Qed.

(** X15.  The containers [getAllCallables] returns belong to the scope or
    to the global scope; and on a map that holds only such containers,
    duplicate and override detection reports no override: what it pushes
    are the duplicate diagnostics alone. *)
Theorem overrides_need_ancestor (program : Program) (this : Scope) (h : Heap)
    (map : CallableContainerMap) (s : ScopeState) :
  Forall (fun c => CallableContainer.scope c = this
                   \/ CallableContainer.scope c = Program.globalScope program)
         (eval (getAllCallables program this) h)
  /\ (Forall (fun entry =>
                Forall (fun c => CallableContainer.scope c = this
                                 \/ CallableContainer.scope c = Program.globalScope program)
                       entry.2) map ->
      emitted (diagnosticFindDuplicateFunctionDeclarations program this map) s
      = flat_map (expectedDuplicateDiagnostics program this) map).
Proof.
  split.
  { unfold eval. rewrite getAllCallables_run. apply allContainersOf_scopes. }
  intros Hmap. apply emitted_pushAll. unfold exec. rewrite duplicates_run. cbn [snd].
  f_equal. induction Hmap as [|entry map Hentry _ IH]; simpl; [done|].
  rewrite IH. f_equal.
  unfold expectedOverrideDiagnostics.
  assert (ancestorCallablesOf program this entry.2 = []) as ->; [|by rewrite app_nil_l].
  apply filter_none. eapply Forall_impl; [exact Hentry|].
  intros c [->| ->].
  - rewrite (bool_decide_eq_true_2 (this = this)) by done. apply andb_false_r.
  - by rewrite bool_decide_eq_true_2.
Qed.

Lemma overrides_need_ancestor_witness :
  Forall (fun entry =>
            Forall (fun c => CallableContainer.scope c = sourceScopeHandle
                             \/ CallableContainer.scope c
                                = Program.globalScope emptyProgram)
                   entry.2)
         [("run", [CallableContainer.mk (runIn 1 "pkg:/source/a.brs") sourceScopeHandle;
                   CallableContainer.mk (runIn 2 "pkg:/source/b.brs") sourceScopeHandle])]
  /\ emitted (diagnosticFindDuplicateFunctionDeclarations emptyProgram sourceScopeHandle
                [("run",
                  [CallableContainer.mk (runIn 1 "pkg:/source/a.brs") sourceScopeHandle;
                   CallableContainer.mk (runIn 2 "pkg:/source/b.brs") sourceScopeHandle])])
             ScopeState.initial
     = flat_map (expectedDuplicateDiagnostics emptyProgram sourceScopeHandle)
         [("run", [CallableContainer.mk (runIn 1 "pkg:/source/a.brs") sourceScopeHandle;
                   CallableContainer.mk (runIn 2 "pkg:/source/b.brs") sourceScopeHandle])].
Proof.
  assert (Forall (fun entry =>
            Forall (fun c => CallableContainer.scope c = sourceScopeHandle
                             \/ CallableContainer.scope c
                                = Program.globalScope emptyProgram)
                   entry.2)
         [("run", [CallableContainer.mk (runIn 1 "pkg:/source/a.brs") sourceScopeHandle;
                   CallableContainer.mk (runIn 2 "pkg:/source/b.brs") sourceScopeHandle])])
    as Hmap.
  { repeat constructor. }
  split; [exact Hmap|].
  exact (proj2 (overrides_need_ancestor emptyProgram sourceScopeHandle ∅ _
                  ScopeState.initial) Hmap).
Defined.

(** ** The checks on the calls of a file, together *)

Lemma flat_map_length_le {A B} (f g : A -> list B) l :
  (forall x, length (f x) + length (g x) <= 1) ->
  length (flat_map f l) + length (flat_map g l) <= length l.
Proof.
  intros Hle. induction l as [|x l IH]; simpl; [lia|].
  rewrite !length_app. specialize (Hle x). lia.
Qed.

(** X16.  The unknown-call check and the arity check of one file report,
    together, at most one diagnostic per call of the file: a call is reported
    as unknown only when no callable has its name, and an arity mismatch
    needs one. *)
Theorem one_diagnostic_per_call (this : Scope) (file : BscFile)
    (map : CallableContainerMap) (s s' : ScopeState) :
  length (emitted (diagnosticDetectCallsToUnknownFunctions this file map) s)
  + length (emitted (diagnosticDetectFunctionCallsWithWrongParamCount file map) s')
  <= length (BscFile.functionCalls file).
Proof.
  rewrite (emitted_pushAll _ _ _ (f_equal snd (unknown_calls_run this file map s))).
  rewrite (emitted_pushAll _ _ _ (f_equal snd (arity_check_run file map s'))).
  apply flat_map_length_le. intros expCall.
  unfold expectedUnknownCallDiagnostics, expectedArityDiagnostics, hasCallable.
  destruct (mapGet map _) as [[|known rest]|]; simpl.
  - destruct (_ && _); simpl; lia.
  - rewrite !andb_false_r. simpl. destruct (bool_decide _); simpl; lia.
  - destruct (_ && _); simpl; lia.
Qed.

(** ** The bounds of the arity check *)

Lemma filter_length_all {A} (keep : A -> bool) l :
  length (List.filter keep l) = length l <-> Forall (fun x => keep x = true) l.
Proof.
  induction l as [|x l IH]; simpl; [by split|].
  pose proof (List.filter_length_le keep l) as Hle.
  destruct (keep x) eqn:E; simpl.
  - split.
    + intros Hlen. constructor; [done|]. apply IH. lia.
    + intros Hall. apply Forall_cons in Hall as [_ Hall]. f_equal. by apply IH.
  - split; [lia|]. intros Hall. apply Forall_cons in Hall as [Hx _]. congruence.
Qed.

Lemma filter_length_Permutation {A} (keep : A -> bool) l l' :
  l ≡ₚ l' -> length (List.filter keep l) = length (List.filter keep l').
Proof.
  induction 1 as [|x l l' _ IH|x y l|l l' l'' _ IH _ IH']; simpl; [done| | |congruence].
  - destruct (keep x); simpl; by rewrite IH.
  - destruct (keep x), (keep y); simpl; done.
Qed.

(** X17.  The loop of the arity check over the parameters of a callable:
    [maxParams] is the number of parameters, [minParams] never exceeds it,
    the two agree exactly when no parameter is optional, and neither depends
    on the order of the parameters: an optional parameter is left out of
    [minParams] wherever it stands, and a required one after it is counted. *)
Theorem countParams_bounds (params params' : list CallableParam) :
  (countParams params).2 = length params
  /\ (countParams params).1 <= (countParams params).2
  /\ ((countParams params).1 = (countParams params).2
      <-> Forall (fun param => CallableParam.isOptional param = false) params)
  /\ (params ≡ₚ params' -> countParams params = countParams params').
Proof.
  rewrite !countParams_spec. cbn [fst snd].
  split; [done|]. split; [apply List.filter_length_le|]. split.
  - rewrite filter_length_all. apply Forall_iff. intros param.
    by destruct (CallableParam.isOptional param).
  - intros Hperm. f_equal.
    + by apply filter_length_Permutation.
    + by apply Permutation_length.
Qed.

Lemma countParams_bounds_witness :
  [CallableParam.mk "a" true; CallableParam.mk "b" false]
    ≡ₚ [CallableParam.mk "b" false; CallableParam.mk "a" true]
  /\ countParams [CallableParam.mk "a" true; CallableParam.mk "b" false]
     = countParams [CallableParam.mk "b" false; CallableParam.mk "a" true].
Proof.
  assert ([CallableParam.mk "a" true; CallableParam.mk "b" false]
            ≡ₚ [CallableParam.mk "b" false; CallableParam.mk "a" true]) as Hperm
    by apply perm_swap.
  split; [exact Hperm|].
  exact (proj2 (proj2 (proj2 (countParams_bounds _ _))) Hperm).
Defined.

(** ** Looking files up *)

Lemma find_some_existsb {A} (test keep : A -> bool) l x :
  List.find test l = Some x ->
  keep x = true ->
  existsb keep l = true.
Proof.
  intros Hfind Hkeep. apply List.find_some in Hfind as [Hin _].
  apply existsb_exists. by exists x.
Qed.

Lemma find_none_existsb {A} (test : A -> bool) l :
  List.find test l = None -> existsb test l = false.
Proof.
  induction l as [|x l IH]; simpl; [done|]. by destruct (test x).
Qed.

Lemma hasFile_eval program this file s :
  eval (hasFile program this file) s
  = existsb (fun f => bool_decide (BscFile.ref f = BscFile.ref file))
            (eval (getAllFiles program this) s).
Proof.
  unfold hasFile, getOwnFiles. by rewrite eval_bind.
Qed.

Lemma find_first {A} (test : A -> bool) l x :
  List.find test l = Some x ->
  exists before after,
    l = before ++ x :: after /\ existsb test before = false /\ test x = true.
Proof.
  induction l as [|y l IH]; simpl; [done|].
  destruct (test y) eqn:E.
  - intros [= ->]. by exists [], l.
  - intros Hfind. destruct (IH Hfind) as (before & after & -> & Hnone & Hx).
    exists (y :: before), after. simpl. by rewrite E.
Qed.

(** X18.  [getFile] returns the first file of the scope whose absolute path
    is the standardized path asked for: the file returned has that path and
    no file before it in [getAllFiles] has; [hasFile] then finds that file
    in the scope.  When [getFile] returns nothing, no file of the scope has
    that path. *)
Theorem getFile_found (standardizePath : string -> string) (program : Program)
    (this : Scope) (pathAbsolute : string) (s : ScopeState) :
  match eval (getFile standardizePath program this pathAbsolute) s with
  | Some file =>
      BscFile.pathAbsolute file = standardizePath pathAbsolute
      /\ (exists before after,
            eval (getAllFiles program this) s = before ++ file :: after
            /\ existsb (fun earlier => bool_decide (BscFile.pathAbsolute earlier
                                                    = standardizePath pathAbsolute))
                       before = false)
      /\ eval (hasFile program this file)
              (exec (getFile standardizePath program this pathAbsolute) s) = true
  | None =>
      existsb (fun file => bool_decide (BscFile.pathAbsolute file
                                        = standardizePath pathAbsolute))
              (eval (getAllFiles program this) s) = false
  end
  /\ exec (getFile standardizePath program this pathAbsolute) s
     = exec (getAllFiles program this) s.
Proof.
  assert (exec (getFile standardizePath program this pathAbsolute) s
          = exec (getAllFiles program this) s) as Hexec.
  { unfold getFile. by rewrite exec_bind. }
  split; [|exact Hexec].
  rewrite Hexec. unfold getFile. rewrite eval_bind. unfold eval at 1, ret. cbn [fst].
  destruct (List.find _ _) as [file|] eqn:Hfind.
  - split; [|split].
    + apply List.find_some in Hfind as [_ Hfile]. by apply bool_decide_eq_true in Hfile.
    + destruct (find_first _ _ _ Hfind) as (before & after & E & Hnone & _).
      by exists before, after.
    + rewrite hasFile_eval, getAllFiles_eval_again.
      eapply find_some_existsb; [exact Hfind|]. by apply bool_decide_eq_true.
  - by apply find_none_existsb.
Qed.

(** X19.  [getFileByRelativePath] compares the paths up to the case of the
    letters: asking with the path in lower case gives the same answer, the
    file returned has the path asked for up to case and is found by
    [hasFile]; when nothing is returned, no file of the scope has that path
    in any case. *)
Theorem getFileByRelativePath_found (program : Program) (this : Scope)
    (relativePath : string) (s : ScopeState) :
  eval (getFileByRelativePath program this (toLowerCase relativePath)) s
  = eval (getFileByRelativePath program this relativePath) s
  /\ match eval (getFileByRelativePath program this relativePath) s with
     | Some file =>
         toLowerCase (BscFile.pkgPath file) = toLowerCase relativePath
         /\ eval (hasFile program this file)
                 (exec (getFileByRelativePath program this relativePath) s) = true
     | None =>
         existsb (fun file => bool_decide (toLowerCase (BscFile.pkgPath file)
                                           = toLowerCase relativePath))
                 (eval (getAllFiles program this) s) = false
     end.
Proof.
  assert (exec (getFileByRelativePath program this relativePath) s
          = exec (getAllFiles program this) s) as Hexec.
  { unfold getFileByRelativePath. by rewrite exec_bind. }
  split.
  { unfold getFileByRelativePath. rewrite !eval_bind. by rewrite toLowerCase_idemp. }
  rewrite Hexec. unfold getFileByRelativePath. rewrite eval_bind.
  unfold eval at 1, ret. cbn [fst].
  destruct (List.find _ _) as [file|] eqn:Hfind.
  - split.
    + apply List.find_some in Hfind as [_ Hfile]. by apply bool_decide_eq_true in Hfile.
    + rewrite hasFile_eval, getAllFiles_eval_again.
      eapply find_some_existsb; [exact Hfind|]. by apply bool_decide_eq_true.
  - by apply find_none_existsb.
Qed.

(** ** Namespace statements *)

Lemma fold_left_app_flat_map {A B} (f : A -> list B) l acc :
  fold_left (fun result x => result ++ f x) l acc = acc ++ flat_map f l.
Proof.
  revert acc. induction l as [|x l IH]; intros acc; simpl.
  - by rewrite app_nil_r.
  - by rewrite IH, <- app_assoc.
Qed.

(** X20.  [getAllNamespaceStatements] returns the namespace statements of
    the files of the scope that have no typedef, file by file in the order
    of [getAllFiles]; its only effect on the scope is that of [getAllFiles]. *)
Theorem getAllNamespaceStatements_files (program : Program) (this : Scope)
    (s : ScopeState) :
  eval (getAllNamespaceStatements program this) s
  = flat_map BscFile.namespaceStatements
             (withoutTypedef (eval (getAllFiles program this) s))
  /\ exec (getAllNamespaceStatements program this) s
     = exec (getAllFiles program this) s.
Proof.
  unfold eval at 1, exec at 1, getAllNamespaceStatements, enumerateAllFiles, bind.
  rewrite (run_eta (getAllFiles program this) s).
  rewrite enumerateFiles_withoutTypedef.
  rewrite enumerateFiles_run_all by apply withoutTypedef_Forall.
  set (files := withoutTypedef _). set (s1 := exec _ s).
  assert (forall acc,
            fold_left (fun acc file => ret (acc.1 ++ BscFile.namespaceStatements file) acc.2)
                      files (acc, s1)
            = (acc ++ flat_map BscFile.namespaceStatements files, s1)) as Hfold.
  { induction files as [|file files IH]; intros acc; simpl.
    - by rewrite app_nil_r.
    - unfold ret at 2. simpl. by rewrite IH, <- app_assoc. }
  by rewrite Hfold.
Qed.

(** ** The partition of the containers *)

Lemma filter_split_Permutation {A} (keep : A -> bool) l :
  l ≡ₚ List.filter keep l ++ List.filter (fun x => negb (keep x)) l.
Proof.
  induction l as [|x l IH]; simpl; [done|].
  destruct (keep x); simpl.
  - by constructor.
  - rewrite <- Permutation_middle. by constructor.
Qed.

(** X21.  The first loop of duplicate detection sorts every container of a
    name into exactly one of three lists: those of the global scope, the own
    ones and those of the other ancestors; the non-global list holds the
    last two.  A container of the global scope is never own, even when the
    scope is the global scope. *)
Theorem partitionContainers_partition (this globalScope : Scope)
    (containers : list CallableContainer) :
  containers
    ≡ₚ Partition.globalCallables (partitionContainers this globalScope containers)
       ++ Partition.ownCallables (partitionContainers this globalScope containers)
       ++ Partition.ancestorNonGlobalCallables
            (partitionContainers this globalScope containers)
  /\ Partition.nonGlobalCallables (partitionContainers this globalScope containers)
       ≡ₚ Partition.ownCallables (partitionContainers this globalScope containers)
          ++ Partition.ancestorNonGlobalCallables
               (partitionContainers this globalScope containers)
  /\ Forall (fun c => CallableContainer.scope c = globalScope)
            (Partition.globalCallables (partitionContainers this globalScope containers))
  /\ Forall (fun c => CallableContainer.scope c = this
                      /\ CallableContainer.scope c <> globalScope)
            (Partition.ownCallables (partitionContainers this globalScope containers))
  /\ Forall (fun c => CallableContainer.scope c <> this
                      /\ CallableContainer.scope c <> globalScope)
            (Partition.ancestorNonGlobalCallables
               (partitionContainers this globalScope containers)).
Proof.
  unfold partitionContainers. rewrite partitionContainers_fold.
  cbn [Partition.globalCallables Partition.nonGlobalCallables Partition.ownCallables
       Partition.ancestorNonGlobalCallables app].
  set (isGlobal := fun c => bool_decide (CallableContainer.scope c = globalScope)).
  set (isOwn := fun c => bool_decide (CallableContainer.scope c = this)).
  assert (List.filter (fun c => negb (isGlobal c)) containers
            ≡ₚ List.filter (fun c => negb (isGlobal c) && isOwn c) containers
               ++ List.filter (fun c => negb (isGlobal c) && negb (isOwn c)) containers)
    as Hsplit.
  { clear. induction containers as [|c containers IH]; simpl; [done|].
    destruct (isGlobal c), (isOwn c); simpl; [done|done| |].
    - by constructor.
    - rewrite <- Permutation_middle. by constructor. }
  split; [|split; [exact Hsplit|]].
  - transitivity (List.filter isGlobal containers
                  ++ List.filter (fun c => negb (isGlobal c)) containers);
      [apply filter_split_Permutation|].
    apply Permutation_app_head. exact Hsplit.
  - split; [|split]; apply Forall_forall; intros c Hin;
      apply list_elem_of_In, List.filter_In in Hin as [_ Hc]; subst isGlobal isOwn;
      simpl in Hc.
    + by apply bool_decide_eq_true in Hc.
    + apply andb_true_iff in Hc as [Hg Ho]. apply negb_true_iff in Hg.
      by apply bool_decide_eq_true in Ho; apply bool_decide_eq_false in Hg.
    + apply andb_true_iff in Hc as [Hg Ho]. apply negb_true_iff in Hg, Ho.
      by apply bool_decide_eq_false in Ho; apply bool_decide_eq_false in Hg.
Qed.

(** ** Validation, then the diagnostics of the scope *)

(** X22.  After a [validate] that ran, [getDiagnostics] returns the
    diagnostics of the stages of that validation followed by those the own
    files without a typedef hold themselves, with the suppressed ones left
    out. *)
Theorem getDiagnostics_after_validate (env : Collaborators) (program : Program)
    (this : Scope) (force : bool) (h : Heap) :
  ScopeState.isValidated (scopeState h this) && negb force = false ->
  eval (call this (getDiagnostics env program this))
       (exec (validate env program this force) h)
  = List.filter (fun x => negb (Collaborators.diagnosticIsSuppressed env x))
      (expectedValidateDiagnostics env program this (filesOf program h this)
         (mapOf env (allContainersOf program h this))
       ++ flat_map BscFile.getDiagnostics (withoutTypedef (filesOf program h this))).
Proof.
  intros Hguard. unfold eval at 1. rewrite call_run. cbn [fst].
  rewrite validate_scopeState by done.
  rewrite getDiagnostics_eval. unfold getOwnFiles, fileDiagnosticsOf.
  rewrite flat_map_withoutTypedef.
  pose proof (filesOf_validatedState env program h this this) as Hfiles.
  unfold filesOf at 1 in Hfiles. rewrite scopeState_insert_eq in Hfiles.
  by rewrite Hfiles.
Qed.

Lemma getDiagnostics_after_validate_witness :
  ScopeState.isValidated (scopeState ∅ sourceScopeHandle) && negb false = false
  /\ eval (call sourceScopeHandle
             (getDiagnostics plainCollaborators importProgram sourceScopeHandle))
          (exec (validate plainCollaborators importProgram sourceScopeHandle false) ∅)
     = List.filter
         (fun x => negb (Collaborators.diagnosticIsSuppressed plainCollaborators x))
         (expectedValidateDiagnostics plainCollaborators importProgram sourceScopeHandle
            (filesOf importProgram ∅ sourceScopeHandle)
            (mapOf plainCollaborators
               (allContainersOf importProgram ∅ sourceScopeHandle))
          ++ flat_map BscFile.getDiagnostics
               (withoutTypedef (filesOf importProgram ∅ sourceScopeHandle))).
Proof.
  split; [reflexivity|].
  apply (getDiagnostics_after_validate plainCollaborators importProgram
           sourceScopeHandle false ∅).
  reflexivity.
Defined.

(** ** The creators *)

Section CreatorsProperties.

Variable kindToString : TokenKind -> string.
Variable NamespacedVariableNameExpression : Type.

(** X23.  A token made by [createToken] is marked reserved exactly when its
    text is the name of its kind: when the text is left out or empty, the
    token gets the name of the kind as text and is reserved; a text that
    happens to be the name of the kind is reserved as well.  The range is the
    one given, or [interpolatedRange], and there is no leading whitespace. *)
Theorem createToken_reserved (kind : TokenKind) (text : option string)
    (range : option Range) :
  Token.isReserved (createToken kindToString kind text range)
  = bool_decide (Token.text (createToken kindToString kind text range)
                 = kindToString kind)
  /\ Token.text (createToken kindToString kind text range)
     = textOfPart kindToString kind (default EmptyString text)
  /\ Token.kind (createToken kindToString kind text range) = kind
  /\ Token.range (createToken kindToString kind text range)
     = default interpolatedRange range
  /\ Token.leadingWhitespace (createToken kindToString kind text range) = EmptyString.
Proof.
  unfold createToken, textOfPart, isTruthy. cbn [Token.isReserved Token.text Token.kind
    Token.range Token.leadingWhitespace].
  split; [|split; [|done]].
  - destruct text as [t|]; simpl.
    + destruct (bool_decide (t = EmptyString)) eqn:E; simpl.
      * by rewrite bool_decide_eq_true_2.
      * apply bool_decide_ext. split; congruence.
    + by rewrite bool_decide_eq_true_2.
  - destruct text as [t|]; simpl; [|done].
    by destruct (bool_decide (t = EmptyString)).
Qed.

Lemma removelast_snoc {A} (l : list A) x : removelast (l ++ [x]) = l.
Proof. by rewrite removelast_app, app_nil_r. Qed.

Lemma createToken_text_part kind part range :
  Token.text (createToken kindToString kind (Some part) range)
  = textOfPart kindToString kind part.
Proof.
  unfold createToken, textOfPart, isTruthy. simpl.
  by destruct (bool_decide (part = EmptyString)).
Qed.

Lemma createDottedIdentifierRec_names fuel path range
    (namespaceName : option NamespacedVariableNameExpression) :
  length path <= fuel ->
  dottedNames (createDottedIdentifierRec kindToString _ fuel path range namespaceName).1
  = replicate (2 - length path) (kindToString TokenKind.Identifier)
    ++ List.map (textOfPart kindToString TokenKind.Identifier) path
  /\ (createDottedIdentifierRec kindToString _ fuel path range namespaceName).2
     = take 1 (removelast path).
Proof.
  revert path. induction fuel as [|fuel IH]; intros path Hfuel.
  { destruct path; [done|simpl in Hfuel; lia]. }
  destruct (decide (path = [])) as [->|Hne]; [done|].
  destruct (exists_last Hne) as (init & x & ->).
  rewrite length_app in Hfuel. simpl in Hfuel.
  cbn [createDottedIdentifierRec]. rewrite removelast_snoc, last_snoc.
  destruct (1 <? length init) eqn:Hlen.
  - apply Nat.ltb_lt in Hlen.
    destruct (IH init) as [Hnames Hrest]; [lia|].
    destruct (createDottedIdentifierRec kindToString _ fuel init range namespaceName)
      as [obj rest].
    cbn [fst snd dottedNames] in *.
    rewrite Hnames, createToken_text_part, length_app, map_app. simpl.
    replace (2 - length init) with 0 by lia.
    replace (2 - (length init + 1)) with 0 by lia. simpl.
    split; [done|]. rewrite Hrest.
    destruct init as [|a [|b init]]; simpl in Hlen; [lia|lia|].
    simpl. by destruct (init ++ [b])%list eqn:E; [destruct init|].
  - apply Nat.ltb_ge in Hlen.
    cbn [fst snd dottedNames createIdentifier].
    rewrite createToken_text_part.
    destruct init as [|a [|b init]]; [done| |simpl in Hlen; lia].
    change (head [a]) with (Some a). by rewrite createToken_text_part.
Qed.

(** X24.  [createDottedIdentifier] builds the chain of dotted gets that
    reads as the given path: for a path of two parts or more, the names
    along the chain are the parts, in order, an empty part reading as the
    name of the kind of identifiers.  A path of one part gives a chain of
    two names, the first of which is the name of the kind of identifiers,
    and the empty path a chain of twice that name.  The array handed in is
    changed: it is left with its first element alone, or empty when it had
    one element or none. *)
Theorem createDottedIdentifier_names (path : list string) (range : option Range)
    (namespaceName : option NamespacedVariableNameExpression) :
  dottedNames (createDottedIdentifier kindToString _ path range namespaceName).1
  = replicate (2 - length path) (kindToString TokenKind.Identifier)
    ++ List.map (textOfPart kindToString TokenKind.Identifier) path
  /\ (createDottedIdentifier kindToString _ path range namespaceName).2
     = take 1 (removelast path)
  /\ Forall (fun token => Token.range token = default interpolatedRange range)
            (tokensOf (createDottedIdentifier kindToString _ path range namespaceName).1).
Proof.
  unfold createDottedIdentifier.
  destruct (createDottedIdentifierRec_names (length path) path range namespaceName)
    as [Hnames Hrest]; [done|].
  split; [exact Hnames|]. split; [exact Hrest|].
  clear. generalize (length path) at 1. intros fuel. revert path.
  induction fuel as [|fuel IH]; intros path; cbn [createDottedIdentifierRec].
  - simpl. by repeat constructor.
  - destruct (1 <? length (removelast path)).
    + specialize (IH (removelast path)).
      destruct (createDottedIdentifierRec kindToString _ fuel (removelast path) range
                  namespaceName) as [obj rest].
      cbn [fst tokensOf] in *. apply Forall_app. split; [done|]. by repeat constructor.
    + simpl. by repeat constructor.
Qed.

End CreatorsProperties.
